(** * WooCommerce REST API client (JWT fork): request construction

    A shallow embedding of the class [WooCommerceRestApi] of
    [src/index.mjs] and of its compiled CommonJS build, whose text is
    carried in the second half of [src/index.d.ts].  The two texts agree
    on [_setDefaultsOptions], [_parseParamsObject], [_getUrl] and the five
    verb methods; they differ in the constructor (the [jwtToken] guard is
    live in [index.mjs] and commented out in the build) and in [_request]
    (the [Authorization] header is unconditional in [index.mjs] and
    guarded by [if (this.jwtToken)] in the build).  The shared methods are
    embedded once; the two that differ live in the modules [Mjs] and
    [Dist]. *)

From Stdlib Require Import String Ascii List ZArith Bool Lia.
From Stdlib Require Import DecimalString.
Import ListNotations.
Open Scope string_scope.

(* ================================================================== *)
(** ** JavaScript values *)
(* ================================================================== *)

(** The values the client handles.  Numbers are the integral ones (a port,
    a timeout); strings are sequences of one-byte code units.  An object is
    the list of its own enumerable properties in enumeration order; the
    list of a genuine object names each key once.  A value holds no
    function: a property of an object is never callable. *)
#[warnings="-register-all"]
Inductive value : Type :=
| VUndefined
| VNull
| VBool (b : bool)
| VNum (n : Z)
| VStr (s : string)
| VObj (props : list (string * value)).

Definition props : Type := list (string * value).

(** [ToBoolean]: what [if (v)], [!v] and [v || d] test. *)
Definition truthy (v : value) : bool :=
  match v with
  | VUndefined | VNull => false
  | VBool b => b
  | VNum n => negb (Z.eqb n 0)
  | VStr s => negb (String.eqb s "")
  | VObj _ => true
  end.

(** [a || b]. *)
Definition js_or (a b : value) : value := if truthy a then a else b.

(** [typeof v]. *)
Definition typeof (v : value) : string :=
  match v with
  | VUndefined => "undefined"
  | VNull => "object"
  | VBool _ => "boolean"
  | VNum _ => "number"
  | VStr _ => "string"
  | VObj _ => "object"
  end.

Definition string_of_nat (n : nat) : string :=
  NilZero.string_of_uint (Nat.to_uint n).

Definition string_of_Z (n : Z) : string :=
  NilZero.string_of_int (Z.to_int n).

(** [v === s] for a string literal [s]. *)
Definition strict_eq_str (v : value) (s : string) : bool :=
  match v with
  | VStr t => String.eqb t s
  | _ => false
  end.

(* ------------------------------------------------------------------ *)
(** *** Property lists *)

(** Own property [k] of a property list, if present. *)
Fixpoint obj_find (o : props) (k : string) : option value :=
  match o with
  | [] => None
  | (k', v) :: o' => if String.eqb k' k then Some v else obj_find o' k
  end.

(** [o[k] = v]: an existing property keeps its place, a new one goes
    last.  (JavaScript enumerates integer-like keys before the others; the
    statements below read objects by key, so the place of a new key does
    not enter them.) *)
Fixpoint obj_set (o : props) (k : string) (v : value) : props :=
  match o with
  | [] => [(k, v)]
  | (k', v') :: o' =>
      if String.eqb k' k then (k', v) :: o' else (k', v') :: obj_set o' k v
  end.

(** The assignment [o[k] = v] on a plain object.  [__proto__] is an
    accessor of [Object.prototype]: unless [o] has an own property of that
    name, the assignment goes to the inherited setter and creates no
    property (the setter ignores a primitive [v]; an object or [null]
    would become the prototype, which a property list does not record and
    no assignment below does).  Every other key is written as an own
    property. *)
Definition js_put (o : props) (k : string) (v : value) : props :=
  if String.eqb k "__proto__" then
    match obj_find o k with
    | Some _ => obj_set o k v
    | None => o
    end
  else obj_set o k v.

(** The characters of a string as the indexed properties of its wrapper
    object. *)
Fixpoint str_entries (i : nat) (s : string) : props :=
  match s with
  | EmptyString => []
  | String c s' => (string_of_nat i, VStr (String c "")) :: str_entries (S i) s'
  end.

(** The own enumerable string keys of a value, in the order [for ... in]
    and object spread visit them.  [undefined], [null], numbers and
    booleans have none. *)
Definition keys (v : value) : list string :=
  match v with
  | VObj o => map fst o
  | VStr s => map fst (str_entries 0 s)
  | _ => []
  end.

(** Property read [v[k]] (and [v.k]) of an own property; an absent one
    reads [undefined].  The call sites below read either a key they got
    from enumerating the object, or one of the option and field names of
    this class, none of which [Object.prototype] has; none reads a
    property of [undefined] or [null]. *)
Definition js_get (v : value) (k : string) : value :=
  match v with
  | VObj o => match obj_find o k with Some w => w | None => VUndefined end
  | VStr s =>
      if String.eqb k "length" then VNum (Z.of_nat (String.length s))
      else match obj_find (str_entries 0 s) k with
           | Some w => w
           | None => VUndefined
           end
  | _ => VUndefined
  end.

(** What a spread [...v] copies: each own enumerable key with the value
    read under it. *)
Definition entries (v : value) : props :=
  map (fun k => (k, js_get v k)) (keys v).

(** Writes a list of entries into [target], first to last. *)
Definition obj_assign (target : props) (src : props) : props :=
  fold_left (fun o kv => obj_set o (fst kv) (snd kv)) src target.

(** The object literal [{ ...a, ...b }]. *)
Definition spread2 (a b : value) : props :=
  obj_assign (obj_assign [] (entries a)) (entries b).

(* ------------------------------------------------------------------ *)
(** *** Strings *)

(** [s.slice(-1)]: the last character, or the empty string. *)
Fixpoint slice_last (s : string) : string :=
  match s with
  | EmptyString => EmptyString
  | String c EmptyString => String c EmptyString
  | String _ s' => slice_last s'
  end.

Fixpoint string_drop (n : nat) (s : string) : string :=
  match n, s with
  | O, _ => s
  | S n', String _ s' => string_drop n' s'
  | S _, EmptyString => EmptyString
  end.

(** Splits [hay] around the leftmost occurrence of [needle]. *)
Fixpoint split_first (needle hay : string) {struct hay}
  : option (string * string) :=
  if String.prefix needle hay
  then Some (EmptyString, string_drop (String.length needle) hay)
  else match hay with
       | EmptyString => None
       | String c rest =>
           match split_first needle rest with
           | Some (before, after) => Some (String c before, after)
           | None => None
           end
       end.

(** [GetSubstitution] for a string pattern: in the replacement text [$$]
    is a dollar sign, [$&] the matched text, [$`] the text before the
    match and [$'] the text after it; there are no capture groups, so any
    other [$] stands for itself. *)
Fixpoint getSubstitution (matched before after repl : string) : string :=
  match repl with
  | EmptyString => EmptyString
  | String "$" (String "$" r) =>
      String "$" (getSubstitution matched before after r)
  | String "$" (String "&" r) =>
      matched ++ getSubstitution matched before after r
  | String "$" (String "`" r) =>
      before ++ getSubstitution matched before after r
  | String "$" (String "'" r) =>
      after ++ getSubstitution matched before after r
  | String c r => String c (getSubstitution matched before after r)
  end.

(** [hay.replace(needle, repl)] with a string pattern: the leftmost
    occurrence only. *)
Definition js_replace (hay needle repl : string) : string :=
  match split_first needle hay with
  | Some (before, after) =>
      before ++ getSubstitution needle before after repl ++ after
  | None => hay
  end.

(* ================================================================== *)
(** ** The runtime the client runs on *)
(* ================================================================== *)

(** What the class takes from outside its own text: the [url-parse]
    package, of which only [new Url(u).hostname] is used; the built-in
    [JSON.stringify]; whether the global [process] exists and is tagged
    ["[object process]"]; and the text the runtime prints for a number
    that is not a safe integer (exponent notation from [1e21] on, the
    shortest digits that read back below).  The transport [axios] is the
    final call of [_request]; its argument is what the embedding
    returns. *)
Class Platform : Type := {
  url_hostname : string -> string;
  JSON_stringify : value -> value;
  node_process : bool;
  Number_toString : Z -> string
}.

(** The safe integers, [|n| < 2^53]: the numbers that print as their
    decimal digits. *)
Definition safe_integer (n : Z) : bool := (Z.abs n <? 2 ^ 53)%Z.

(** The text [ToString] yields when it completes: what [+] next to a
    string and a template literal put in the place of a value. *)
Definition toStr {P : Platform} (v : value) : string :=
  match v with
  | VUndefined => "undefined"
  | VNull => "null"
  | VBool true => "true"
  | VBool false => "false"
  | VNum n => if safe_integer n then string_of_Z n else Number_toString n
  | VStr s => s
  | VObj _ => "[object Object]"
  end.

(** Whether [ToString] completes.  A primitive always converts.  An object
    converts through its [toString] method: the inherited one answers
    ["[object Object]"]; an own property [toString] hides it and, not
    being callable, leaves the conversion with the inherited [valueOf]
    alone, which returns the object itself, so the conversion throws. *)
Definition converts (v : value) : bool :=
  match v with
  | VObj o =>
      match obj_find o "toString" with
      | Some _ => false
      | None => true
      end
  | _ => true
  end.

(* ================================================================== *)
(** ** The client object *)
(* ================================================================== *)

(** The fields the constructor assigns on [this]. *)
Record client : Type := mkClient {
  classVersion : value;
  url : value;
  wpAPIPrefix : value;
  version : value;
  jwtToken : value;
  encoding : value;
  port : value;
  timeout : value;
  axiosConfig : value
}.

(** [this] as [new] hands it to the constructor: no field assigned yet. *)
Definition fresh_this : client :=
  mkClient VUndefined VUndefined VUndefined VUndefined VUndefined
           VUndefined VUndefined VUndefined VUndefined.

(** What a method can throw: [OptionsException] is the class of that name
    in the source; [TypeError] is the runtime's, raised by a call of a
    method the receiver does not have. *)
Inductive exn : Type :=
| OptionsException (message : string)
| TypeError.

Inductive completion (A : Type) : Type :=
| Normal (a : A)
| Throw (e : exn).

Arguments Normal {A} a.
Arguments Throw {A} e.

(** A method body: it runs against [this] and leaves a completion and the
    state of [this] behind. *)
Definition M (A : Type) : Type := client -> completion A * client.

Definition ret {A : Type} (a : A) : M A := fun this => (Normal a, this).

Definition throw {A : Type} (e : exn) : M A := fun this => (Throw e, this).

Definition bind {A B : Type} (m : M A) (f : A -> M B) : M B :=
  fun this =>
    match m this with
    | (Normal a, this') => f a this'
    | (Throw e, this') => (Throw e, this')
    end.

(** [this.f] *)
Definition read (f : client -> value) : M value :=
  fun this => (Normal (f this), this).

(** [this.f = v], one definition per field. *)
Definition assign (upd : client -> client) : M unit :=
  fun this => (Normal tt, upd this).

Declare Scope js_scope.
Delimit Scope js_scope with js.
Notation "x <- m ;; k" := (bind m (fun x => k))
  (at level 61, m at next level, right associativity) : js_scope.
Notation "m ;; k" := (bind m (fun _ => k))
  (at level 61, right associativity) : js_scope.
Open Scope js_scope.

(** [ToString(v)] inside a method: the text, or [TypeError]. *)
Definition ToString {P : Platform} (v : value) : M string :=
  if converts v then ret (toStr v) else throw TypeError.

Definition with_classVersion (v : value) (c : client) : client :=
  mkClient v (url c) (wpAPIPrefix c) (version c) (jwtToken c)
           (encoding c) (port c) (timeout c) (axiosConfig c).
Definition with_url (v : value) (c : client) : client :=
  mkClient (classVersion c) v (wpAPIPrefix c) (version c) (jwtToken c)
           (encoding c) (port c) (timeout c) (axiosConfig c).
Definition with_wpAPIPrefix (v : value) (c : client) : client :=
  mkClient (classVersion c) (url c) v (version c) (jwtToken c)
           (encoding c) (port c) (timeout c) (axiosConfig c).
Definition with_version (v : value) (c : client) : client :=
  mkClient (classVersion c) (url c) (wpAPIPrefix c) v (jwtToken c)
           (encoding c) (port c) (timeout c) (axiosConfig c).
Definition with_jwtToken (v : value) (c : client) : client :=
  mkClient (classVersion c) (url c) (wpAPIPrefix c) (version c) v
           (encoding c) (port c) (timeout c) (axiosConfig c).
Definition with_encoding (v : value) (c : client) : client :=
  mkClient (classVersion c) (url c) (wpAPIPrefix c) (version c) (jwtToken c)
           v (port c) (timeout c) (axiosConfig c).
Definition with_port (v : value) (c : client) : client :=
  mkClient (classVersion c) (url c) (wpAPIPrefix c) (version c) (jwtToken c)
           (encoding c) v (timeout c) (axiosConfig c).
Definition with_timeout (v : value) (c : client) : client :=
  mkClient (classVersion c) (url c) (wpAPIPrefix c) (version c) (jwtToken c)
           (encoding c) (port c) v (axiosConfig c).
Definition with_axiosConfig (v : value) (c : client) : client :=
  mkClient (classVersion c) (url c) (wpAPIPrefix c) (version c) (jwtToken c)
           (encoding c) (port c) (timeout c) v.

(** A parameter with the default [= d]: the default applies to
    [undefined] only. *)
Definition default_arg (v d : value) : value :=
  match v with
  | VUndefined => d
  | _ => v
  end.

(* ================================================================== *)
(** ** Methods common to both texts *)
(* ================================================================== *)

(** [_setDefaultsOptions(opt)] *)
Definition _setDefaultsOptions (opt : value) : M unit :=
  assign (with_url (js_get opt "url")) ;;
  assign (with_wpAPIPrefix (js_or (js_get opt "wpAPIPrefix") (VStr "wp-json"))) ;;
  assign (with_version (js_or (js_get opt "version") (VStr "wc/v3"))) ;;
  assign (with_jwtToken (js_get opt "jwtToken")) ;;
  assign (with_encoding (js_or (js_get opt "encoding") (VStr "utf8"))) ;;
  assign (with_port (js_or (js_get opt "port") (VStr ""))) ;;
  assign (with_timeout (js_get opt "timeout")) ;;
  assign (with_axiosConfig (js_or (js_get opt "axiosConfig") (VObj []))).

(** [_parseParamsObject(params, query)].  [query] is the plain object the
    loop writes into and returns; for-in keys are strings, so
    [key.toString()] and [prop.toString()] are the keys themselves. *)
Definition _parseParamsObject (params : value) (query : props) : props :=
  fold_left
    (fun query key =>
       let value := js_get params key in
       if String.eqb (typeof value) "object" then
         fold_left
           (fun query prop =>
              let itemKey := key ++ "[" ++ prop ++ "]" in
              js_put query itemKey (js_get value prop))
           (keys value) query
       else js_put query key value)
    (keys params) query.

Section Methods.

Context {P : Platform}.

(** [_getUrl(endpoint, params)].  [params] is not used.  [this.url.slice]
    exists on strings only; every [+] has a string operand, so each is a
    concatenation after [ToString] of the other operand, which can
    throw. *)
Definition _getUrl (endpoint params : value) : M string :=
  wpAPIPrefix <- read wpAPIPrefix ;;
  wpAPIPrefix <- ToString wpAPIPrefix ;;
  let api := wpAPIPrefix ++ "/" in
  this_url <- read url ;;
  match this_url with
  | VStr u =>
      let url := if String.eqb (slice_last u) "/" then u else u ++ "/" in
      version <- read version ;;
      version <- ToString version ;;
      endpoint <- ToString endpoint ;;
      let url := url ++ api ++ version ++ "/" ++ endpoint in
      port <- read port ;;
      if negb (strict_eq_str port "") then
        let hostname := url_hostname url in
        port <- ToString port ;;
        ret (js_replace url hostname (hostname ++ ":" ++ port))
      else ret url
  | _ => throw TypeError
  end.

(** [headers] and [options.headers] name one object: a write through
    either name is seen through the other.  The embedding keeps that one
    object under the [headers] property of [options]. *)
Definition set_header (options : props) (k : string) (v : value) : props :=
  match js_get (VObj options) "headers" with
  | VObj headers => obj_set options "headers" (VObj (obj_set headers k v))
  | _ => options
  end.

End Methods.

(** A call of one of the five public methods, with its arguments. *)
Inductive call : Type :=
| Get (endpoint params : value)
| Post (endpoint data params : value)
| Put (endpoint data params : value)
| Delete (endpoint params : value)
| Options (endpoint params : value).

(** Runs method calls one after the other on the same object, whatever
    each returns or throws. *)
Fixpoint run (invoke : call -> M value) (cs : list call) (this : client)
  : list (completion value) * client :=
  match cs with
  | [] => ([], this)
  | c :: cs' =>
      let (r, this') := invoke c this in
      let (rs, this'') := run invoke cs' this' in
      (r :: rs, this'')
  end.


(* ================================================================== *)
(** ** [src/index.mjs] *)
(* ================================================================== *)

Module Mjs.
Section WithPlatform.

Context {P : Platform}.

(** [constructor(opt)].  Under [new] the test [this instanceof
    WooCommerceRestApi] holds, so its branch is not taken. *)
Definition constructor (opt : value) : M unit :=
  let opt := js_or opt (VObj []) in
  if negb (truthy (js_get opt "url")) then
    throw (OptionsException "url is required")
  else if negb (truthy (js_get opt "jwtToken")) then
    throw (OptionsException "jwtToken is required")
  else
    assign (with_classVersion (VStr "1.0.1")) ;;
    _setDefaultsOptions opt.

(** [new WooCommerceRestApi(opt)]: the object when the constructor
    completes, its exception otherwise. *)
Definition new (opt : value) : completion client :=
  match constructor opt fresh_this with
  | (Normal _, this) => Normal this
  | (Throw e, _) => Throw e
  end.

(** [_request(method, endpoint, data, params = {})]; the result is the
    options object passed to [axios]. *)
Definition _request (method endpoint data params : value) : M value :=
  let params := default_arg params (VObj []) in
  url <- _getUrl endpoint params ;;
  let headers := [("Accept", VStr "application/json")] in
  headers <-
    (if node_process then
       classVersion <- read classVersion ;;
       classVersion <- ToString classVersion ;;
       ret (obj_set headers "User-Agent"
              (VStr ("WooCommerce REST API - JS Client/" ++ classVersion)))
     else ret headers) ;;
  encoding <- read encoding ;;
  timeout <- read timeout ;;
  let options :=
    [("url", VStr url);
     ("method", method);
     ("responseEncoding", encoding);
     ("timeout", timeout);
     ("responseType", VStr "json");
     ("headers", VObj headers)] in
  jwtToken <- read jwtToken ;;
  jwtToken <- ToString jwtToken ;;
  let options :=
    set_header options "Authorization" (VStr ("Bearer " ++ jwtToken)) in
  let options :=
    obj_set options "params"
      (VObj (spread2 (js_get (VObj options) "params") params)) in
  let options :=
    if truthy data then
      let options :=
        set_header options "Content-Type"
          (VStr "application/json;charset=utf-8") in
      obj_set options "data" (JSON_stringify data)
    else options in
  axiosConfig <- read axiosConfig ;;
  let options := spread2 (VObj options) axiosConfig in
  ret (VObj options).

Definition get (endpoint params : value) : M value :=
  _request (VStr "get") endpoint VNull (default_arg params (VObj [])).

Definition post (endpoint data params : value) : M value :=
  _request (VStr "post") endpoint data (default_arg params (VObj [])).

Definition put (endpoint data params : value) : M value :=
  _request (VStr "put") endpoint data (default_arg params (VObj [])).

Definition delete (endpoint params : value) : M value :=
  _request (VStr "delete") endpoint VNull (default_arg params (VObj [])).

Definition options (endpoint params : value) : M value :=
  _request (VStr "options") endpoint VNull (default_arg params (VObj [])).

(** Dispatch of a [call] to the method it names. *)
Definition invoke (c : call) : M value :=
  match c with
  | Get endpoint params => get endpoint params
  | Post endpoint data params => post endpoint data params
  | Put endpoint data params => put endpoint data params
  | Delete endpoint params => delete endpoint params
  | Options endpoint params => options endpoint params
  end.

End WithPlatform.
End Mjs.

(* ================================================================== *)
(** ** The compiled build in [src/index.d.ts] *)
(* ================================================================== *)

Module Dist.
Section WithPlatform.

Context {P : Platform}.

(** [constructor(opt)]; the [jwtToken] guard is a comment here. *)
Definition constructor (opt : value) : M unit :=
  let opt := js_or opt (VObj []) in
  if negb (truthy (js_get opt "url")) then
    throw (OptionsException "url is required")
  else
    assign (with_classVersion (VStr "1.0.1")) ;;
    _setDefaultsOptions opt.

Definition new (opt : value) : completion client :=
  match constructor opt fresh_this with
  | (Normal _, this) => Normal this
  | (Throw e, _) => Throw e
  end.

(** [_request(method, endpoint, data, params = {})].
    [_objectSpread({}, a, {}, b)] is the compiled [{ ...a, ...b }]. *)
Definition _request (method endpoint data params : value) : M value :=
  let params := default_arg params (VObj []) in
  url <- _getUrl endpoint params ;;
  let headers := [("Accept", VStr "application/json")] in
  headers <-
    (if node_process then
       classVersion <- read classVersion ;;
       classVersion <- ToString classVersion ;;
       ret (obj_set headers "User-Agent"
              (VStr ("WooCommerce REST API - JS Client/" ++ classVersion)))
     else ret headers) ;;
  encoding <- read encoding ;;
  timeout <- read timeout ;;
  let options :=
    [("url", VStr url);
     ("method", method);
     ("responseEncoding", encoding);
     ("timeout", timeout);
     ("responseType", VStr "json");
     ("headers", VObj headers)] in
  jwtToken <- read jwtToken ;;
  options <-
    (if truthy jwtToken then
       jwtToken <- ToString jwtToken ;;
       ret (set_header options "Authorization"
              (VStr ("Bearer " ++ jwtToken)))
     else ret options) ;;
  let options :=
    obj_set options "params"
      (VObj (spread2 (js_get (VObj options) "params") params)) in
  let options :=
    if truthy data then
      let options :=
        set_header options "Content-Type"
          (VStr "application/json;charset=utf-8") in
      obj_set options "data" (JSON_stringify data)
    else options in
  axiosConfig <- read axiosConfig ;;
  let options := spread2 (VObj options) axiosConfig in
  ret (VObj options).

Definition get (endpoint params : value) : M value :=
  _request (VStr "get") endpoint VNull (default_arg params (VObj [])).

Definition post (endpoint data params : value) : M value :=
  _request (VStr "post") endpoint data (default_arg params (VObj [])).

Definition put (endpoint data params : value) : M value :=
  _request (VStr "put") endpoint data (default_arg params (VObj [])).

Definition delete (endpoint params : value) : M value :=
  _request (VStr "delete") endpoint VNull (default_arg params (VObj [])).

Definition options (endpoint params : value) : M value :=
  _request (VStr "options") endpoint VNull (default_arg params (VObj [])).

(** Dispatch of a [call] to the method it names. *)
Definition invoke (c : call) : M value :=
  match c with
  | Get endpoint params => get endpoint params
  | Post endpoint data params => post endpoint data params
  | Put endpoint data params => put endpoint data params
  | Delete endpoint params => delete endpoint params
  | Options endpoint params => options endpoint params
  end.

End WithPlatform.
End Dist.

(* ================================================================== *)
(** ** A reference runtime *)
(* ================================================================== *)

(** A concrete [Platform] on which the methods can be evaluated: Node.js
    with [url-parse] and [JSON.stringify] restricted to the inputs used
    here, namely URLs of the shape [scheme://[auth@]host[:port][/path]]
    and the values of type [value]. *)

Definition lower (c : ascii) : ascii :=
  let n := nat_of_ascii c in
  if (65 <=? n)%nat && (n <=? 90)%nat then ascii_of_nat (n + 32) else c.

Fixpoint lowercase (s : string) : string :=
  match s with
  | EmptyString => EmptyString
  | String c s' => String (lower c) (lowercase s')
  end.

Definition is_digit (c : ascii) : bool :=
  let n := nat_of_ascii c in (48 <=? n)%nat && (n <=? 57)%nat.

Fixpoint all_digits (s : string) : bool :=
  match s with
  | EmptyString => true
  | String c s' => is_digit c && all_digits s'
  end.

(** The text after the first [//]. *)
Fixpoint after_slashes (s : string) : option string :=
  match s with
  | EmptyString => None
  | String "/" (String "/" r) => Some r
  | String _ r => after_slashes r
  end.

(** Up to the first of [/], [?], [#] and the backslash. *)
Fixpoint authority (s : string) : string :=
  match s with
  | EmptyString => EmptyString
  | String c r =>
      if existsb (Ascii.eqb c) ["/"; "?"; "#"; "\"]%char then EmptyString
      else String c (authority r)
  end.

Definition drop_auth (s : string) : string :=
  match split_first "@" s with
  | Some (_, after) => after
  | None => s
  end.

(** Removes a final [:digits]. *)
Fixpoint strip_port (s : string) : string :=
  match s with
  | EmptyString => EmptyString
  | String c r =>
      if Ascii.eqb c ":" && all_digits r && negb (String.eqb r "")
      then EmptyString
      else String c (strip_port r)
  end.

Definition hostname_of (u : string) : string :=
  match after_slashes u with
  | Some rest => lowercase (strip_port (drop_auth (authority rest)))
  | None => EmptyString
  end.

Fixpoint strip_zeros (s : string) : string :=
  match s with
  | EmptyString => EmptyString
  | String c r =>
      match strip_zeros r with
      | EmptyString => if Ascii.eqb c "0" then EmptyString else String c ""
      | r' => String c r'
      end
  end.

(** The text of a number: its digits below [1e21], exponent notation from
    there on (exact for the numbers with at most fifteen significant
    digits). *)
Definition number_text (n : Z) : string :=
  if (Z.abs n <? 10 ^ 21)%Z then string_of_Z n
  else
    let digits := string_of_Z (Z.abs n) in
    let mantissa := strip_zeros digits in
    (if (n <? 0)%Z then "-" else "")
      ++ String.substring 0 1 mantissa
      ++ (if (1 <? String.length mantissa)%nat
          then "." ++ String.substring 1 (String.length mantissa - 1) mantissa
          else "")
      ++ "e+" ++ string_of_nat (String.length digits - 1).

Definition dquote : string := String (ascii_of_nat 34) EmptyString.

Definition hex_digit (n : nat) : string :=
  String.substring n 1 "0123456789abcdef".

Definition json_char (c : ascii) : string :=
  let n := nat_of_ascii c in
  if (n =? 34)%nat then "\" ++ dquote
  else if (n =? 92)%nat then "\\"
  else if (n =? 8)%nat then "\b"
  else if (n =? 9)%nat then "\t"
  else if (n =? 10)%nat then "\n"
  else if (n =? 12)%nat then "\f"
  else if (n =? 13)%nat then "\r"
  else if (n <? 32)%nat then "\u00" ++ hex_digit (n / 16) ++ hex_digit (n mod 16)
  else String c EmptyString.

Fixpoint json_string_body (s : string) : string :=
  match s with
  | EmptyString => EmptyString
  | String c s' => json_char c ++ json_string_body s'
  end.

Definition json_string (s : string) : string :=
  dquote ++ json_string_body s ++ dquote.

(** The JSON text of a value other than [undefined]; a property whose
    value is [undefined] is left out. *)
Fixpoint json_text (v : value) : string :=
  match v with
  | VUndefined => "null"
  | VNull => "null"
  | VBool true => "true"
  | VBool false => "false"
  | VNum n => number_text n
  | VStr s => json_string s
  | VObj o =>
      "{" ++
      (fix members (first : bool) (o : list (string * value)) : string :=
         match o with
         | [] => EmptyString
         | (_, VUndefined) :: o' => members first o'
         | (k, w) :: o' =>
             (if first then "" else ",") ++
             json_string k ++ ":" ++ json_text w ++ members false o'
         end) true o
      ++ "}"
  end.

Definition json_stringify (v : value) : value :=
  match v with
  | VUndefined => VUndefined
  | _ => VStr (json_text v)
  end.

Definition node_platform : Platform := {|
  url_hostname := hostname_of;
  JSON_stringify := json_stringify;
  node_process := true;
  Number_toString := number_text
|}.

(* ================================================================== *)
(** ** Vocabulary of the statements *)
(* ================================================================== *)

(** [k] is an own enumerable key of [v]. *)
Definition has_key (v : value) (k : string) : bool :=
  existsb (fun k' => String.eqb k' k) (keys v).

(** The value of the last entry written under [k] in a list of writes. *)
Fixpoint last_write (es : props) (k : string) : option value :=
  match es with
  | [] => None
  | (k', v) :: es' =>
      match last_write es' k with
      | Some w => Some w
      | None => if String.eqb k' k then Some v else None
      end
  end.

Definition is_object (v : value) : bool :=
  match v with
  | VObj _ => true
  | _ => false
  end.

(** Flattening as the specification words it: a key whose value is a
    nested object yields one entry [key[prop]] per property of the value,
    any other key yields itself. *)
Definition flat_entries (params : value) : props :=
  flat_map
    (fun key =>
       let value := js_get params key in
       if is_object value
       then map (fun prop => (key ++ "[" ++ prop ++ "]", js_get value prop))
                (keys value)
       else [(key, value)])
    (keys params).

(** No own value of [params] is [null]. *)
Definition no_null_value (params : value) : bool :=
  forallb (fun k => match js_get params k with VNull => false | _ => true end)
          (keys params).

(** Number of positions of [hay] at which [needle] starts. *)
Fixpoint occurrences (needle hay : string) : nat :=
  (if String.prefix needle hay then 1 else 0) +
  match hay with
  | EmptyString => 0
  | String _ rest => occurrences needle rest
  end.

Fixpoint no_dollar (s : string) : bool :=
  match s with
  | EmptyString => true
  | String c s' => negb (Ascii.eqb c "$") && no_dollar s'
  end.

(** The state a successful construction from [opt] leaves in [this]. *)
Definition configured (opt : value) : client :=
  {| classVersion := VStr "1.0.1";
     url := js_get opt "url";
     wpAPIPrefix := js_or (js_get opt "wpAPIPrefix") (VStr "wp-json");
     version := js_or (js_get opt "version") (VStr "wc/v3");
     jwtToken := js_get opt "jwtToken";
     encoding := js_or (js_get opt "encoding") (VStr "utf8");
     port := js_or (js_get opt "port") (VStr "");
     timeout := js_get opt "timeout";
     axiosConfig := js_or (js_get opt "axiosConfig") (VObj []) |}.

Definition call_method (c : call) : string :=
  match c with
  | Get _ _ => "get"
  | Post _ _ _ => "post"
  | Put _ _ _ => "put"
  | Delete _ _ => "delete"
  | Options _ _ => "options"
  end.

Definition call_endpoint (c : call) : value :=
  match c with
  | Get e _ | Post e _ _ | Put e _ _ | Delete e _ | Options e _ => e
  end.

(** The body a call hands to [_request]: its [data] argument for [post]
    and [put], [null] for the other three. *)
Definition call_data (c : call) : value :=
  match c with
  | Post _ d _ | Put _ d _ => d
  | Get _ _ | Delete _ _ | Options _ _ => VNull
  end.

(** The [params] of a call after the default [{}] has been applied. *)
Definition call_params (c : call) : value :=
  match c with
  | Get _ p | Post _ _ p | Put _ _ p | Delete _ p | Options _ p =>
      default_arg p (VObj [])
  end.

(** The URL [_getUrl] has composed when it reaches the port step, for a
    client whose [url] is the string [u]. *)
Definition composed_url {P : Platform} (u : string) (c : client)
           (endpoint : value) : string :=
  (if String.eqb (slice_last u) "/" then u else u ++ "/")
    ++ (toStr (wpAPIPrefix c) ++ "/")
    ++ toStr (version c) ++ "/" ++ toStr endpoint.

(** The values [_getUrl] concatenates into the URL of [endpoint] all
    convert to strings. *)
Definition url_converts (c : client) (endpoint : value) : bool :=
  converts (wpAPIPrefix c) && converts (version c) && converts endpoint
  && converts (port c).

(** The values a request for [endpoint] concatenates into its URL and its
    headers all convert to strings. *)
Definition request_converts (c : client) (endpoint : value) : bool :=
  url_converts c endpoint && converts (classVersion c)
  && converts (jwtToken c).

(** The port step applied to a composed URL. *)
Definition port_step {P : Platform} (c : client) (composed : string)
  : string :=
  if negb (strict_eq_str (port c) "")
  then js_replace composed (url_hostname composed)
         (url_hostname composed ++ ":" ++ toStr (port c))
  else composed.

(* ================================================================== *)
(** ** Helpers of the compiled build *)
(* ================================================================== *)

(** The functions the compiler put in front of the class in
    [src/index.d.ts] to stand for the spread literals of [index.mjs]. *)

(** The property names every plain object inherits from
    [Object.prototype]. *)
Definition object_prototype_keys : list string :=
  ["constructor"; "__defineGetter__"; "__defineSetter__"; "hasOwnProperty";
   "__lookupGetter__"; "__lookupSetter__"; "isPrototypeOf";
   "propertyIsEnumerable"; "toString"; "valueOf"; "__proto__";
   "toLocaleString"].

(** [key in obj] for a plain object: own or inherited. *)
Definition js_in (obj : props) (key : string) : bool :=
  match obj_find obj key with
  | Some _ => true
  | None => existsb (String.eqb key) object_prototype_keys
  end.

(** [Object.defineProperty(obj, key, { value, enumerable: true,
    configurable: true, writable: true })] on an object whose own
    properties are plain data properties. *)
Definition defineProperty (obj : props) (key : string) (v : value) : props :=
  obj_set obj key v.

(** [_defineProperty(obj, key, value)] *)
Definition _defineProperty (obj : props) (key : string) (v : value) : props :=
  if js_in obj key then defineProperty obj key v else obj_set obj key v.

(** [ownKeys(object, enumerableOnly)]: [Object.keys(object)] followed by
    the symbol keys, of which a [value] has none. *)
Definition ownKeys (object : value) (enumerableOnly : bool) : list string :=
  keys object.

(** The own properties [Object.getOwnPropertyDescriptors(source)]
    describes, with their values.  A string also owns [length]; that it is
    not enumerable is not recorded in a property list. *)
Definition own_descriptors (source : value) : props :=
  match source with
  | VStr s => (entries source ++ [("length", VNum (Z.of_nat (String.length s)))])%list
  | _ => entries source
  end.

(** The loop of [_objectSpread(target, ...)] from argument [i] on;
    [descriptors] tells whether [Object.getOwnPropertyDescriptors]
    exists. *)
Fixpoint _objectSpread_from (descriptors : bool) (i : nat) (target : props)
         (arguments : list value) : props :=
  match arguments with
  | [] => target
  | argument :: rest =>
      let source :=
        match argument with
        | VUndefined | VNull => VObj []
        | _ => argument
        end in
      let target :=
        if Nat.odd i then
          fold_left
            (fun target key => _defineProperty target key (js_get source key))
            (ownKeys source true) target
        else if descriptors then
          obj_assign target (own_descriptors source)
        else
          fold_left
            (fun target key => defineProperty target key (js_get source key))
            (ownKeys source false) target in
      _objectSpread_from descriptors (S i) target rest
  end.

(** [_objectSpread(target, a1, a2, ...)] *)
Definition _objectSpread (descriptors : bool) (target : props)
           (sources : list value) : props :=
  _objectSpread_from descriptors 1 target sources.

(* ================================================================== *)
(** ** More vocabulary *)
(* ================================================================== *)

(** A shop used in examples. *)
Definition shop_options : value :=
  VObj [("url", VStr "https://shop.example.com");
        ("jwtToken", VStr "secret")].

Definition shop_client : client := configured shop_options.

(** [c] is the client one of the two constructors built from [opt]. *)
Definition constructed (opt : value) (c : client) : Prop :=
  Mjs.new opt = Normal c \/ Dist.new opt = Normal c.

(** The outcome [r] of a call on [c] is a dispatch with method [name]. *)
Definition dispatches_method (r : completion value * client) (c : client)
           (name : string) : Prop :=
  exists o, r = (Normal (VObj o), c) /\ obj_find o "method" = Some (VStr name).

(** The outcome [r] of a call on [c] is a dispatch that carries neither
    [data] nor a [Content-Type] header. *)
Definition dispatches_no_body (r : completion value * client) (c : client)
  : Prop :=
  exists o h,
    r = (Normal (VObj o), c)
    /\ obj_find o "data" = None
    /\ obj_find o "headers" = Some (VObj h)
    /\ obj_find h "Content-Type" = None.

(** Every own value of [params] has a type other than ["object"]. *)
Definition all_scalar (params : value) : bool :=
  forallb (fun k => negb (String.eqb (typeof (js_get params k)) "object"))
          (keys params).

(* ================================================================== *)
(** ** Property lists: lookups after writes *)
(* ================================================================== *)

Lemma obj_find_obj_set (o : props) (k k' : string) (v : value) :
  obj_find (obj_set o k v) k' =
  if String.eqb k k' then Some v else obj_find o k'.
Proof.
  induction o as [|[k0 v0] o IH]; simpl.
  - reflexivity.
  - destruct (String.eqb k0 k) eqn:E0; simpl.
    + apply String.eqb_eq in E0; subst k0.
      destruct (String.eqb k k'); reflexivity.
    + destruct (String.eqb k0 k') eqn:E1.
      * apply String.eqb_eq in E1; subst k0.
        rewrite String.eqb_sym, E0. reflexivity.
      * exact IH.
Qed.

Lemma obj_assign_cons (o : props) (k : string) (v : value) (es : props) :
  obj_assign o ((k, v) :: es) = obj_assign (obj_set o k v) es.
Proof. reflexivity. Qed.

Lemma obj_assign_app (o es1 es2 : props) :
  obj_assign o (es1 ++ es2)%list = obj_assign (obj_assign o es1) es2.
Proof. unfold obj_assign. apply fold_left_app. Qed.

Lemma obj_find_obj_assign (es o : props) (k : string) :
  obj_find (obj_assign o es) k =
  match last_write es k with
  | Some v => Some v
  | None => obj_find o k
  end.
Proof.
  revert o. induction es as [|[k0 v0] es IH]; intros o.
  - reflexivity.
  - rewrite obj_assign_cons, IH. simpl.
    destruct (last_write es k); [reflexivity|].
    rewrite obj_find_obj_set. destruct (String.eqb k0 k); reflexivity.
Qed.

Lemma last_write_keyed (f : string -> value) (ks : list string) (k : string) :
  last_write (map (fun k' => (k', f k')) ks) k =
  if existsb (fun k' => String.eqb k' k) ks then Some (f k) else None.
Proof.
  induction ks as [|k0 ks IH]; simpl.
  - reflexivity.
  - rewrite IH. destruct (existsb _ ks).
    + rewrite orb_true_r. reflexivity.
    + rewrite orb_false_r. destruct (String.eqb k0 k) eqn:E.
      * apply String.eqb_eq in E. subst. reflexivity.
      * reflexivity.
Qed.

Lemma last_write_entries (v : value) (k : string) :
  last_write (entries v) k =
  if has_key v k then Some (js_get v k) else None.
Proof. apply last_write_keyed. Qed.

Lemma last_write_in (es : props) (k : string) (x : value) :
  last_write es k = Some x -> In (k, x) es.
Proof.
  induction es as [|[k1 v1] es IH]; simpl; intros Hx.
  - discriminate.
  - destruct (last_write es k) as [y|].
    + injection Hx as <-. right. now apply IH.
    + destruct (String.eqb k1 k) eqn:E1; [|discriminate].
      apply String.eqb_eq in E1. injection Hx as <-. subst k1. now left.
Qed.

Lemma last_write_some (es : props) (k : string) (v : value) :
  In (k, v) es -> exists w, last_write es k = Some w.
Proof.
  induction es as [|[k1 v1] es IH]; simpl; intros Hin.
  - destruct Hin.
  - destruct (last_write es k) as [y|] eqn:Hl; [now exists y|].
    destruct Hin as [Hin|Hin].
    + injection Hin as -> _. rewrite String.eqb_refl. now exists v1.
    + destruct (IH Hin) as [w Hw]. discriminate.
Qed.

(** When the writes under [k] all carry the same value, that value is the
    last one written. *)
Lemma last_write_agreed (es : props) (k : string) (v : value) :
  In (k, v) es ->
  (forall w, In (k, w) es -> w = v) ->
  last_write es k = Some v.
Proof.
  intros Hin Hall. destruct (last_write_some es k v Hin) as [w Hw].
  rewrite Hw. f_equal. apply Hall. now apply last_write_in.
Qed.

Lemma last_write_absent (es : props) (k : string) :
  (forall w, ~ In (k, w) es) -> last_write es k = None.
Proof.
  induction es as [|[k0 v0] es IH]; intros Hno.
  - reflexivity.
  - simpl. rewrite IH.
    + destruct (String.eqb k0 k) eqn:E; [|reflexivity].
      apply String.eqb_eq in E. subst k0. destruct (Hno v0). now left.
    + intros w Hw. apply (Hno w). now right.
Qed.

(** A property of [{ ...a, ...b }] is [b]'s when [b] has the key, else
    [a]'s when [a] has it, else absent. *)
Lemma obj_find_spread2 (a b : value) (k : string) :
  obj_find (spread2 a b) k =
  if has_key b k then Some (js_get b k)
  else if has_key a k then Some (js_get a k)
  else None.
Proof.
  unfold spread2. rewrite !obj_find_obj_assign, !last_write_entries.
  destruct (has_key b k), (has_key a k); reflexivity.
Qed.

Lemma has_key_obj (o : props) (k : string) :
  has_key (VObj o) k = match obj_find o k with Some _ => true | None => false end.
Proof.
  unfold has_key. simpl. induction o as [|[k0 v0] o IH]; simpl.
  - reflexivity.
  - destruct (String.eqb k0 k); [reflexivity | exact IH].
Qed.

Lemma fold_left_map_set (A : Type) (f : A -> string * value) (l : list A)
      (o : props) :
  fold_left (fun q a => obj_set q (fst (f a)) (snd (f a))) l o =
  obj_assign o (map f l).
Proof.
  revert o. induction l as [|a l IH]; intros o; simpl.
  - reflexivity.
  - rewrite IH. reflexivity.
Qed.

(* ================================================================== *)
(** ** Strings: concatenation, last character, leftmost occurrence *)
(* ================================================================== *)

Lemma str_app_nil_r (s : string) : s ++ "" = s.
Proof. induction s as [|c s IH]; simpl; [reflexivity | now rewrite IH]. Qed.

Lemma str_app_assoc (a b c : string) : (a ++ b) ++ c = a ++ b ++ c.
Proof. induction a as [|x a IH]; simpl; [reflexivity | now rewrite IH]. Qed.

Lemma str_length_app (a b : string) :
  String.length (a ++ b) = String.length a + String.length b.
Proof. induction a as [|x a IH]; simpl; [reflexivity | now rewrite IH]. Qed.

Lemma slice_last_snoc (b : string) (c : ascii) :
  slice_last (b ++ String c "") = String c "".
Proof.
  induction b as [|x b IH]; simpl.
  - reflexivity.
  - rewrite IH. destruct b; reflexivity.
Qed.

Lemma slice_last_inv (s : string) (c : ascii) :
  slice_last s = String c "" -> exists b, s = b ++ String c "".
Proof.
  induction s as [|x s IH]; simpl.
  - discriminate.
  - destruct s as [|y s'].
    + intros H. injection H as ->. exists "". reflexivity.
    + intros H. destruct (IH H) as [b Hb]. exists (String x b).
      simpl. now rewrite Hb.
Qed.

Lemma prefix_step (a b : ascii) (s1 s2 : string) :
  String.prefix (String a s1) (String b s2) =
  Ascii.eqb a b && String.prefix s1 s2.
Proof.
  simpl. destruct (ascii_dec a b) as [->|Hne].
  - now rewrite Ascii.eqb_refl.
  - apply Ascii.eqb_neq in Hne. now rewrite Hne.
Qed.

Lemma prefix_app_self (h s : string) : String.prefix h (h ++ s) = true.
Proof.
  induction h as [|c h IH].
  - destruct s; reflexivity.
  - cbn [append]. rewrite prefix_step, Ascii.eqb_refl. exact IH.
Qed.

Lemma string_drop_app_self (h s : string) :
  string_drop (String.length h) (h ++ s) = s.
Proof. induction h as [|c h IH]; simpl; [reflexivity | exact IH]. Qed.

(** Whether [h] starts [x ++ y] is decided inside [x] when [h] is no longer
    than [x]. *)
Lemma prefix_short (h x y : string) :
  String.length h <= String.length x ->
  String.prefix h (x ++ y) = String.prefix h x.
Proof.
  revert x. induction h as [|c h IH]; intros x Hlen.
  - destruct x, y; reflexivity.
  - destruct x as [|d x]; simpl in Hlen; [lia|].
    cbn [append]. rewrite !prefix_step. rewrite IH by lia. reflexivity.
Qed.

Lemma occurrences_suffix (h pre : string) : 1 <= occurrences h (pre ++ h).
Proof.
  induction pre as [|c pre IH].
  - cbn [append]. pose proof (prefix_app_self h "") as Hp.
    rewrite str_app_nil_r in Hp.
    destruct h; simpl in *; try rewrite Hp; lia.
  - cbn [append occurrences]. lia.
Qed.

Lemma split_first_eq (needle hay : string) :
  split_first needle hay =
  if String.prefix needle hay
  then Some (EmptyString, string_drop (String.length needle) hay)
  else match hay with
       | EmptyString => None
       | String c rest =>
           match split_first needle rest with
           | Some (before, after) => Some (String c before, after)
           | None => None
           end
       end.
Proof. destruct hay; reflexivity. Qed.

(** When [h] occurs in [pre ++ h] at its end only, the split of
    [pre ++ h ++ post] around the leftmost [h] is [(pre, post)]. *)
Lemma split_first_leftmost (h pre post : string) :
  occurrences h (pre ++ h) = 1 ->
  split_first h (pre ++ h ++ post) = Some (pre, post).
Proof.
  induction pre as [|c pre IH]; intros Hocc.
  - cbn [append]. rewrite split_first_eq, prefix_app_self.
    now rewrite string_drop_app_self.
  - cbn [append occurrences] in Hocc.
    pose proof (occurrences_suffix h pre) as Hge.
    destruct (String.prefix h (String c (pre ++ h))) eqn:Hp; [lia|].
    rewrite split_first_eq.
    assert (Hp' : String.prefix h (String c pre ++ h ++ post) = false).
    { rewrite <- str_app_assoc, prefix_short; [exact Hp|].
      cbn [append String.length]. rewrite str_length_app. lia. }
    rewrite Hp'. cbn [append]. rewrite IH by lia. reflexivity.
Qed.

Lemma getSubstitution_literal (matched before after repl : string) :
  no_dollar repl = true ->
  getSubstitution matched before after repl = repl.
Proof.
  induction repl as [|c r IH]; intros H.
  - reflexivity.
  - simpl in H. apply andb_true_iff in H as [Hc Hr].
    specialize (IH Hr).
    destruct c as [[] [] [] [] [] [] [] []];
      try discriminate Hc; simpl; rewrite IH; reflexivity.
Qed.

(** [replace] on a text whose leftmost occurrence of the pattern is known,
    with a replacement free of [$]. *)
Lemma js_replace_leftmost (h pre post repl : string) :
  occurrences h (pre ++ h) = 1 ->
  no_dollar repl = true ->
  js_replace (pre ++ h ++ post) h repl = pre ++ repl ++ post.
Proof.
  intros Hocc Hnd. unfold js_replace.
  rewrite (split_first_leftmost h pre post Hocc).
  rewrite getSubstitution_literal by exact Hnd.
  reflexivity.
Qed.

(* ================================================================== *)
(** ** Flattening as a list of writes *)
(* ================================================================== *)

Lemma occurrences_inside (h pre post : string) :
  1 <= occurrences h (pre ++ h ++ post).
Proof.
  induction pre as [|c pre IH].
  - cbn [append]. destruct (h ++ post) eqn:E; cbn [occurrences];
      rewrite <- E, prefix_app_self; lia.
  - cbn [append occurrences]. lia.
Qed.

(** A bracketed key is never [__proto__]. *)
Lemma bracket_key_not_proto (key prop : string) :
  String.eqb (key ++ "[" ++ prop ++ "]") "__proto__" = false.
Proof.
  destruct (String.eqb (key ++ "[" ++ prop ++ "]") "__proto__") eqn:E;
    [|reflexivity].
  apply String.eqb_eq in E.
  pose proof (occurrences_inside "[" key (prop ++ "]")) as H.
  rewrite E in H. vm_compute in H. lia.
Qed.

Lemma js_put_bracket_key (q : props) (key prop : string) (v : value) :
  js_put q (key ++ "[" ++ prop ++ "]") v
  = obj_set q (key ++ "[" ++ prop ++ "]") v.
Proof. unfold js_put. now rewrite bracket_key_not_proto. Qed.

Lemma js_put_other_key (q : props) (key : string) (v : value) :
  String.eqb key "__proto__" = false -> js_put q key v = obj_set q key v.
Proof. unfold js_put. now intros ->. Qed.

Lemma fold_js_put_brackets (key : string) (f : string -> value)
      (l : list string) (q : props) :
  fold_left (fun q prop => js_put q (key ++ "[" ++ prop ++ "]") (f prop)) l q
  = obj_assign q (map (fun prop => (key ++ "[" ++ prop ++ "]", f prop)) l).
Proof.
  revert q. induction l as [|prop l IH]; intros q; cbn [fold_left map].
  - reflexivity.
  - rewrite IH, js_put_bracket_key. reflexivity.
Qed.

Lemma typeof_object_not_null (v : value) :
  match v with VNull => false | _ => true end = true ->
  String.eqb (typeof v) "object" = is_object v.
Proof. destruct v; intros H; try reflexivity; discriminate H. Qed.

(** On parameters with no own key [__proto__] and no [null] value, the
    loop of [_parseParamsObject] performs the writes of [flat_entries] in
    their order. *)
Lemma parse_as_writes (params : value) (query : props) :
  has_key params "__proto__" = false ->
  no_null_value params = true ->
  _parseParamsObject params query = obj_assign query (flat_entries params).
Proof.
  unfold has_key, no_null_value, _parseParamsObject, flat_entries.
  generalize (keys params) as ks. intros ks. revert query.
  induction ks as [|key ks IH]; intros query Hp Hn; simpl in *.
  - reflexivity.
  - apply orb_false_iff in Hp as [Hkey Hp].
    apply andb_true_iff in Hn as [Hv Hn].
    rewrite obj_assign_app, <- IH by assumption. f_equal.
    rewrite (typeof_object_not_null _ Hv).
    destruct (is_object (js_get params key)).
    + apply fold_js_put_brackets.
    + now apply js_put_other_key.
Qed.

(* ================================================================== *)
(** ** The methods, run *)
(* ================================================================== *)

Section RequestFacts.

Context {P : Platform}.

Lemma ToString_converts (v : value) (c : client) :
  converts v = true -> ToString v c = (Normal (toStr v), c).
Proof. unfold ToString. now intros ->. Qed.

Lemma ToString_state (v : value) (c : client) : snd (ToString v c) = c.
Proof. unfold ToString. now destruct (converts v). Qed.

Lemma url_converts_parts (c : client) (e : value) :
  url_converts c e = true ->
  converts (wpAPIPrefix c) = true /\ converts (version c) = true
  /\ converts e = true /\ converts (port c) = true.
Proof.
  unfold url_converts. intros H.
  apply andb_true_iff in H as [H Hp]. apply andb_true_iff in H as [H He].
  apply andb_true_iff in H as [Hw Hv]. auto.
Qed.

Lemma request_converts_parts (c : client) (e : value) :
  request_converts c e = true ->
  url_converts c e = true /\ converts (classVersion c) = true
  /\ converts (jwtToken c) = true.
Proof.
  unfold request_converts. intros H.
  apply andb_true_iff in H as [H Ht]. apply andb_true_iff in H as [Hu Hc].
  auto.
Qed.

(** [_getUrl] on a client whose [url] is a string and whose other parts
    convert: it completes, leaves [this] as it was, and returns the
    composed text after the port step. *)
Lemma _getUrl_string (c : client) (u : string) (e p : value) :
  url c = VStr u ->
  url_converts c e = true ->
  _getUrl e p c = (Normal (port_step c (composed_url u c e)), c).
Proof.
  intros Hu Hc.
  destruct (url_converts_parts c e Hc) as (Hw & Hv & He & Hp).
  unfold _getUrl, bind, read, ToString, ret, port_step, composed_url.
  rewrite Hw, Hu, Hv, He.
  destruct (negb (strict_eq_str (port c) "")); [|reflexivity].
  now rewrite Hp.
Qed.

Lemma _getUrl_state (c : client) (e p : value) : snd (_getUrl e p c) = c.
Proof.
  unfold _getUrl, bind, read, ToString, throw, ret.
  destruct (converts (wpAPIPrefix c)); [|reflexivity].
  destruct (url c); try reflexivity.
  destruct (converts (version c)); [|reflexivity].
  destruct (converts e); [|reflexivity].
  destruct (negb (strict_eq_str (port c) "")); [|reflexivity].
  destruct (converts (port c)); reflexivity.
Qed.

Lemma mjs_invoke_request (cl : call) :
  Mjs.invoke cl =
  Mjs._request (VStr (call_method cl)) (call_endpoint cl) (call_data cl)
               (call_params cl).
Proof. destruct cl; reflexivity. Qed.

Lemma dist_invoke_request (cl : call) :
  Dist.invoke cl =
  Dist._request (VStr (call_method cl)) (call_endpoint cl) (call_data cl)
                (call_params cl).
Proof. destruct cl; reflexivity. Qed.

Ltac run_request Hu Hc :=
  let Hurl := fresh "Hurl" in
  let Hcv := fresh "Hcv" in
  let Htok := fresh "Htok" in
  destruct (request_converts_parts _ _ Hc) as (Hurl & Hcv & Htok);
  unfold Mjs._request, Dist._request;
  unfold bind at 1;
  rewrite (_getUrl_string _ _ _ _ Hu Hurl);
  repeat progress
    (cbv beta iota zeta delta [bind read ret throw ToString];
     rewrite ?Hcv, ?Htok).

(** What [_request] of [index.mjs] has assembled when it reaches the merge
    of the transport overrides, and what it then gives to the transport. *)
Lemma mjs_request_assembled (c : client) (u : string) (m e d p : value) :
  url c = VStr u ->
  request_converts c e = true ->
  exists (a h : props),
    Mjs._request m e d p c =
      (Normal (VObj (spread2 (VObj a) (axiosConfig c))), c)
    /\ obj_find a "method" = Some m
    /\ obj_find a "params"
       = Some (VObj (spread2 VUndefined (default_arg p (VObj []))))
    /\ obj_find a "data"
       = (if truthy d then Some (JSON_stringify d) else None)
    /\ obj_find a "headers" = Some (VObj h)
    /\ obj_find h "Accept" = Some (VStr "application/json")
    /\ obj_find h "Authorization"
       = Some (VStr ("Bearer " ++ toStr (jwtToken c)))
    /\ obj_find h "Content-Type"
       = (if truthy d
          then Some (VStr "application/json;charset=utf-8") else None).
Proof.
  intros Hu Hc. run_request Hu Hc.
  destruct node_process;
    repeat progress
      (cbv beta iota zeta delta [bind read ret throw ToString];
       rewrite ?Hcv, ?Htok);
    destruct (truthy d);
    do 2 eexists; (split; [reflexivity|]); repeat split; reflexivity.
Qed.

(** The same for the compiled build, where the authorization header
    depends on the token. *)
Lemma dist_request_assembled (c : client) (u : string) (m e d p : value) :
  url c = VStr u ->
  request_converts c e = true ->
  exists (a h : props),
    Dist._request m e d p c =
      (Normal (VObj (spread2 (VObj a) (axiosConfig c))), c)
    /\ obj_find a "method" = Some m
    /\ obj_find a "params"
       = Some (VObj (spread2 VUndefined (default_arg p (VObj []))))
    /\ obj_find a "data"
       = (if truthy d then Some (JSON_stringify d) else None)
    /\ obj_find a "headers" = Some (VObj h)
    /\ obj_find h "Accept" = Some (VStr "application/json")
    /\ obj_find h "Authorization"
       = (if truthy (jwtToken c)
          then Some (VStr ("Bearer " ++ toStr (jwtToken c))) else None)
    /\ obj_find h "Content-Type"
       = (if truthy d
          then Some (VStr "application/json;charset=utf-8") else None).
Proof.
  intros Hu Hc. run_request Hu Hc.
  destruct node_process;
    repeat progress
      (cbv beta iota zeta delta [bind read ret throw ToString];
       rewrite ?Hcv, ?Htok);
    destruct (truthy (jwtToken c));
    repeat progress
      (cbv beta iota zeta delta [bind read ret throw ToString];
       rewrite ?Hcv, ?Htok);
    destruct (truthy d);
    do 2 eexists; (split; [reflexivity|]); repeat split; reflexivity.
Qed.

(** A request never assigns a field of [this], whether it completes or
    throws. *)
Lemma mjs_request_state (c : client) (m e d p : value) :
  snd (Mjs._request m e d p c) = c.
Proof.
  unfold Mjs._request. unfold bind at 1.
  pose proof (_getUrl_state c e (default_arg p (VObj []))) as Hs.
  destruct (_getUrl e (default_arg p (VObj [])) c) as [[s|x] c']; simpl in Hs;
    subst c'; [|reflexivity].
  repeat (cbv beta iota zeta delta [bind read ret throw ToString];
          match goal with
          | |- context [if converts ?v then _ else _] => destruct (converts v)
          | |- context [if truthy ?v then _ else _] => destruct (truthy v)
          | |- context [if node_process then _ else _] =>
              destruct node_process
          end);
    cbv beta iota zeta delta [bind read ret throw ToString]; reflexivity.
Qed.

Lemma dist_request_state (c : client) (m e d p : value) :
  snd (Dist._request m e d p c) = c.
Proof.
  unfold Dist._request. unfold bind at 1.
  pose proof (_getUrl_state c e (default_arg p (VObj []))) as Hs.
  destruct (_getUrl e (default_arg p (VObj [])) c) as [[s|x] c']; simpl in Hs;
    subst c'; [|reflexivity].
  repeat (cbv beta iota zeta delta [bind read ret throw ToString];
          match goal with
          | |- context [if converts ?v then _ else _] => destruct (converts v)
          | |- context [if truthy ?v then _ else _] => destruct (truthy v)
          | |- context [if node_process then _ else _] =>
              destruct node_process
          end);
    cbv beta iota zeta delta [bind read ret throw ToString]; reflexivity.
Qed.

Lemma run_state (invoke : call -> M value) (cs : list call) (c : client) :
  (forall cl c', snd (invoke cl c') = c') ->
  snd (run invoke cs c) = c.
Proof.
  intros Hinv. revert c. induction cs as [|cl cs IH]; intros c; simpl.
  - reflexivity.
  - specialize (Hinv cl c). destruct (invoke cl c) as [r c1]. simpl in Hinv.
    subst c1. specialize (IH c). destruct (run invoke cs c) as [rs c2].
    exact IH.
Qed.

End RequestFacts.

(* ================================================================== *)
(** ** Construction *)
(* ================================================================== *)

Lemma js_or_truthy (a b : value) : truthy a = true -> js_or a b = a.
Proof. unfold js_or. now intros ->. Qed.

(** A falsy [opt] is replaced by [{}], which has no [url]. *)
Lemma truthy_url_truthy_opt (opt : value) :
  truthy (js_get (js_or opt (VObj [])) "url") = true -> truthy opt = true.
Proof.
  unfold js_or. destruct (truthy opt); [reflexivity | discriminate].
Qed.

Lemma mjs_new_outcome (opt : value) :
  Mjs.new opt =
  let o := js_or opt (VObj []) in
  if truthy (js_get o "url") then
    if truthy (js_get o "jwtToken") then Normal (configured o)
    else Throw (OptionsException "jwtToken is required")
  else Throw (OptionsException "url is required").
Proof.
  unfold Mjs.new, Mjs.constructor. cbv zeta.
  destruct (truthy (js_get (js_or opt (VObj [])) "url")); [|reflexivity].
  destruct (truthy (js_get (js_or opt (VObj [])) "jwtToken")); reflexivity.
Qed.

Lemma dist_new_outcome (opt : value) :
  Dist.new opt =
  let o := js_or opt (VObj []) in
  if truthy (js_get o "url") then Normal (configured o)
  else Throw (OptionsException "url is required").
Proof.
  unfold Dist.new, Dist.constructor. cbv zeta.
  destruct (truthy (js_get (js_or opt (VObj [])) "url")); reflexivity.
Qed.

Lemma mjs_new_normal (opt : value) (c : client) :
  Mjs.new opt = Normal c ->
  c = configured opt
  /\ truthy (js_get opt "url") = true
  /\ truthy (js_get opt "jwtToken") = true.
Proof.
  rewrite mjs_new_outcome. cbv zeta.
  destruct (truthy (js_get (js_or opt (VObj [])) "url")) eqn:Hu;
    [|discriminate].
  pose proof (js_or_truthy opt (VObj []) (truthy_url_truthy_opt opt Hu)) as Ho.
  rewrite Ho in *.
  destruct (truthy (js_get opt "jwtToken")); [|discriminate].
  intros H. injection H as <-. repeat split. exact Hu.
Qed.

Lemma dist_new_normal (opt : value) (c : client) :
  Dist.new opt = Normal c ->
  c = configured opt /\ truthy (js_get opt "url") = true.
Proof.
  rewrite dist_new_outcome. cbv zeta.
  destruct (truthy (js_get (js_or opt (VObj [])) "url")) eqn:Hu;
    [|discriminate].
  pose proof (js_or_truthy opt (VObj []) (truthy_url_truthy_opt opt Hu)) as Ho.
  rewrite Ho in *.
  intros H. injection H as <-. split; [reflexivity | assumption].
Qed.

(* ================================================================== *)
(** ** Properties of the client *)
(* ================================================================== *)

(** C2, as stated, fails on [index.mjs]: a configuration that supplies
    [url] but no [jwtToken] is rejected by the constructor. *)
Lemma C2_url_alone_is_rejected_by_mjs :
  Mjs.new (VObj [("url", VStr "https://shop.example.com")])
  = Throw (OptionsException "jwtToken is required").
Proof. reflexivity. Qed.

(** C2, amended: construction throws [OptionsException], and nothing
    else, exactly when a required option is falsy.  In [index.mjs] the
    required options are [url] and [jwtToken], tested in that order; in
    the compiled build [url] alone.  Otherwise construction completes with
    the options stored and the defaults filled in. *)
Theorem C2_construction_outcome (opt : value) :
  let o := js_or opt (VObj []) in
  Mjs.new opt =
    (if truthy (js_get o "url") then
       if truthy (js_get o "jwtToken") then Normal (configured o)
       else Throw (OptionsException "jwtToken is required")
     else Throw (OptionsException "url is required"))
  /\ Dist.new opt =
    (if truthy (js_get o "url") then Normal (configured o)
     else Throw (OptionsException "url is required")).
Proof. split; [apply mjs_new_outcome | apply dist_new_outcome]. Qed.

(** C9, as stated, fails: a scalar stored under a key that a bracketed
    key of a later nested object spells out is not kept unchanged but
    overwritten. *)
Lemma C9_scalar_key_is_overwritten :
  let params := VObj [("a[b]", VNum 1); ("a", VObj [("b", VNum 2)])] in
  js_get params "a[b]" = VNum 1
  /\ obj_find (_parseParamsObject params []) "a[b]" = Some (VNum 2).
Proof. split; reflexivity. Qed.

(** C9, amended: [_parseParamsObject] expands one level.  On the example
    of the specification it returns the three flat keys; an object two
    levels down is stored as it is under the bracketed key; and for
    parameters with no own key [__proto__] and no [null] value the result
    is that of writing, in enumeration order, the entries of
    [flat_entries]: one [key[prop]] per property for a key whose value is
    a nested object, the key itself for any other value, a later write
    replacing an earlier one under the same flat key.  So a flat key under
    which all entries agree carries that value, and a flat key without an
    entry is absent from the flattening of [params]. *)
Theorem C9_flatten_one_level (params : value) (query : props) :
  has_key params "__proto__" = false ->
  no_null_value params = true ->
  _parseParamsObject
    (VObj [("status", VStr "publish");
           ("meta", VObj [("key", VStr "color"); ("value", VStr "red")])]) []
  = [("status", VStr "publish");
     ("meta[key]", VStr "color");
     ("meta[value]", VStr "red")]
  /\ _parseParamsObject
       (VObj [("filter", VObj [("meta", VObj [("key", VStr "color")])])]) []
     = [("filter[meta]", VObj [("key", VStr "color")])]
  /\ _parseParamsObject params query = obj_assign query (flat_entries params)
  /\ (forall k,
        obj_find (_parseParamsObject params query) k =
        match last_write (flat_entries params) k with
        | Some v => Some v
        | None => obj_find query k
        end)
  /\ (forall k v,
        In (k, v) (flat_entries params) ->
        (forall w, In (k, w) (flat_entries params) -> w = v) ->
        obj_find (_parseParamsObject params query) k = Some v)
  /\ (forall k,
        (forall w, ~ In (k, w) (flat_entries params)) ->
        obj_find (_parseParamsObject params []) k = None).
Proof.
  intros Hp Hn.
  split; [reflexivity|]. split; [reflexivity|]. split; [|split; [|split]].
  - now apply parse_as_writes.
  - intros k. rewrite parse_as_writes by assumption.
    apply obj_find_obj_assign.
  - intros k v Hin Hall.
    rewrite parse_as_writes, obj_find_obj_assign by assumption.
    now rewrite (last_write_agreed _ k v Hin Hall).
  - intros k Hno.
    rewrite parse_as_writes, obj_find_obj_assign by assumption.
    now rewrite (last_write_absent _ k Hno).
Qed.

(** C9, amended, on the example of the specification: the flat key
    [meta[key]] has one entry, and the flattening carries its value. *)
Lemma C9_flatten_one_level_witness :
  obj_find
    (_parseParamsObject
       (VObj [("status", VStr "publish");
              ("meta", VObj [("key", VStr "color"); ("value", VStr "red")])])
       [])
    "meta[key]"
  = Some (VStr "color").
Proof.
  apply (proj1 (proj2 (proj2 (proj2 (proj2
           (C9_flatten_one_level
              (VObj [("status", VStr "publish");
                     ("meta",
                      VObj [("key", VStr "color"); ("value", VStr "red")])])
              [] eq_refl eq_refl)))))).
  - simpl. right. left. reflexivity.
  - intros w Hw. simpl in Hw.
    destruct Hw as [H|[H|[H|[]]]]; inversion H; reflexivity.
Defined.

(** C10: no call of [get], [post], [put], [delete] or [options], and no
    sequence of them, changes a field of the client: after the calls
    [this] is the record it was before them, in both texts, whether the
    calls complete or throw. *)
Theorem C10_configuration_unchanged {P : Platform}
        (c : client) (cs : list call) :
  snd (run Mjs.invoke cs c) = c /\ snd (run Dist.invoke cs c) = c.
Proof.
  split; apply run_state; intros cl c'.
  - rewrite mjs_invoke_request. apply mjs_request_state.
  - rewrite dist_invoke_request. apply dist_request_state.
Qed.

(* ------------------------------------------------------------------ *)
(** *** What reaches the transport *)

Lemma default_arg_twice (p : value) :
  default_arg (default_arg p (VObj [])) (VObj []) = default_arg p (VObj []).
Proof. destruct p; reflexivity. Qed.

Lemma default_arg_call_params (cl : call) :
  default_arg (call_params cl) (VObj []) = call_params cl.
Proof. destruct cl; apply default_arg_twice. Qed.

(** A key the overrides do not have keeps what [_request] assembled. *)
Lemma dispatched_keep (a : props) (cfg : value) (k : string) :
  has_key cfg k = false ->
  obj_find (spread2 (VObj a) cfg) k = obj_find a k.
Proof.
  intros Hk. rewrite obj_find_spread2, Hk, has_key_obj. simpl.
  destruct (obj_find a k); reflexivity.
Qed.


Lemma has_key_undefined (k : string) : has_key VUndefined k = false.
Proof. reflexivity. Qed.




(** C1, as stated, fails: a nested parameter reaches the transport as the
    nested object it was, not as bracketed keys. *)
Lemma C1_nested_params_are_not_flattened :
  let params :=
    VObj [("status", VStr "publish");
          ("meta", VObj [("key", VStr "color"); ("value", VStr "red")])] in
  let c := configured (VObj [("url", VStr "https://shop.example.com");
                             ("jwtToken", VStr "secret")]) in
  exists o,
    @Mjs.get node_platform (VStr "products") params c = (Normal (VObj o), c)
    /\ @Dist.get node_platform (VStr "products") params c
       = (Normal (VObj o), c)
    /\ obj_find o "params" = Some params
    /\ params <> VObj (_parseParamsObject params []).
Proof.
  cbv zeta. eexists. split; [lazy; reflexivity|]. split; [reflexivity|].
  split; [reflexivity|]. vm_compute. discriminate.
Qed.

(** C1, amended: on a client whose [url] is a string and whose URL and
    header parts convert to strings, when [axiosConfig] has no [params]
    of its own, the query mapping given to the transport is a fresh copy
    of the call's [params]:
    it has exactly the keys of [params], each with the value [params] has
    under it, scalar or nested; nothing is expanded into bracketed keys. *)
Theorem C1_query_copies_params {P : Platform}
        (c : client) (u : string) (cl : call) :
  url c = VStr u ->
  request_converts c (call_endpoint cl) = true ->
  has_key (axiosConfig c) "params" = false ->
  (exists o q,
      Mjs.invoke cl c = (Normal (VObj o), c)
      /\ obj_find o "params" = Some (VObj q)
      /\ forall k, obj_find q k =
                   if has_key (call_params cl) k
                   then Some (js_get (call_params cl) k) else None)
  /\ (exists o q,
         Dist.invoke cl c = (Normal (VObj o), c)
         /\ obj_find o "params" = Some (VObj q)
         /\ forall k, obj_find q k =
                      if has_key (call_params cl) k
                      then Some (js_get (call_params cl) k) else None).
Proof.
  intros Hu Hc Hk. split.
  - rewrite mjs_invoke_request.
    destruct (mjs_request_assembled c u (VStr (call_method cl))
                (call_endpoint cl) (call_data cl) (call_params cl) Hu Hc)
      as (a & h & Hrun & _ & Hq & _).
    do 2 eexists. split; [exact Hrun|]. split.
    + rewrite dispatched_keep by exact Hk. exact Hq.
    + intros k. rewrite default_arg_call_params, obj_find_spread2.
      now rewrite has_key_undefined.
  - rewrite dist_invoke_request.
    destruct (dist_request_assembled c u (VStr (call_method cl))
                (call_endpoint cl) (call_data cl) (call_params cl) Hu Hc)
      as (a & h & Hrun & _ & Hq & _).
    do 2 eexists. split; [exact Hrun|]. split.
    + rewrite dispatched_keep by exact Hk. exact Hq.
    + intros k. rewrite default_arg_call_params, obj_find_spread2.
      now rewrite has_key_undefined.
Qed.

(** C1, amended, at a concrete call with a nested parameter. *)
Lemma C1_query_copies_params_witness :
  let params := VObj [("meta", VObj [("key", VStr "color")])] in
  let c := configured (VObj [("url", VStr "https://shop.example.com");
                             ("jwtToken", VStr "secret")]) in
  exists o q,
    @Mjs.invoke node_platform (Get (VStr "products") params) c
    = (Normal (VObj o), c)
    /\ obj_find o "params" = Some (VObj q)
    /\ obj_find q "meta" = Some (VObj [("key", VStr "color")])
    /\ obj_find q "meta[key]" = None.
Proof.
  cbv zeta.
  destruct (@C1_query_copies_params node_platform
              (configured (VObj [("url", VStr "https://shop.example.com");
                                 ("jwtToken", VStr "secret")]))
              "https://shop.example.com"
              (Get (VStr "products")
                   (VObj [("meta", VObj [("key", VStr "color")])]))
              eq_refl eq_refl eq_refl) as [(o & q & Hrun & Hq & Hall) _].
  exists o, q. split; [exact Hrun|]. split; [exact Hq|].
  split; [exact (Hall "meta") | exact (Hall "meta[key]")].
Defined.

(** C4, as stated, fails: with a token configured and overrides that
    carry a [headers] object, the headers given to the transport are the
    overriding ones, and [Authorization] is not among them. *)
Lemma C4_overriding_headers_drop_authorization :
  let opt :=
    VObj [("url", VStr "https://shop.example.com");
          ("jwtToken", VStr "secret");
          ("axiosConfig",
           VObj [("headers", VObj [("X-Requested-With", VStr "fetch")])])] in
  exists c o,
    Mjs.new opt = Normal c
    /\ Dist.new opt = Normal c
    /\ @Mjs.get node_platform (VStr "products") VUndefined c
       = (Normal (VObj o), c)
    /\ @Dist.get node_platform (VStr "products") VUndefined c
       = (Normal (VObj o), c)
    /\ obj_find o "headers"
       = Some (VObj [("X-Requested-With", VStr "fetch")]).
Proof.
  cbv zeta. do 2 eexists. split; [reflexivity|]. split; [reflexivity|].
  split; [lazy; reflexivity|]. split; reflexivity.
Qed.

(** C4, amended: when the client's [url] is a string, its URL and header
    parts convert to strings and [axiosConfig] has no [headers] of its
    own, every request of a constructed client is dispatched with
    [Authorization]
    equal to ["Bearer "] followed by the token whenever a token is
    configured; a client of [index.mjs] always has one, and a client of the
    compiled build without one is dispatched without any [Authorization]
    header. *)
Theorem C4_authorization_header {P : Platform}
        (opt : value) (c : client) (u : string) (cl : call) :
  url c = VStr u ->
  request_converts c (call_endpoint cl) = true ->
  has_key (axiosConfig c) "headers" = false ->
  (Mjs.new opt = Normal c ->
   truthy (js_get opt "jwtToken") = true
   /\ exists o h,
       Mjs.invoke cl c = (Normal (VObj o), c)
       /\ obj_find o "headers" = Some (VObj h)
       /\ obj_find h "Authorization"
          = Some (VStr ("Bearer " ++ toStr (js_get opt "jwtToken"))))
  /\ (Dist.new opt = Normal c ->
      exists o h,
        Dist.invoke cl c = (Normal (VObj o), c)
        /\ obj_find o "headers" = Some (VObj h)
        /\ obj_find h "Authorization"
           = if truthy (js_get opt "jwtToken")
             then Some (VStr ("Bearer " ++ toStr (js_get opt "jwtToken")))
             else None).
Proof.
  intros Hu Hc' Hk. split; intros Hnew.
  - destruct (mjs_new_normal opt c Hnew) as (Hc & _ & Htok).
    split; [exact Htok|].
    rewrite mjs_invoke_request.
    destruct (mjs_request_assembled c u (VStr (call_method cl))
                (call_endpoint cl) (call_data cl) (call_params cl) Hu Hc')
      as (a & h & Hrun & _ & _ & _ & Hh & _ & Hauth & _).
    exists (spread2 (VObj a) (axiosConfig c)), h.
    split; [exact Hrun|]. split.
    + rewrite dispatched_keep by exact Hk. exact Hh.
    + rewrite Hauth, Hc. reflexivity.
  - destruct (dist_new_normal opt c Hnew) as (Hc & _).
    rewrite dist_invoke_request.
    destruct (dist_request_assembled c u (VStr (call_method cl))
                (call_endpoint cl) (call_data cl) (call_params cl) Hu Hc')
      as (a & h & Hrun & _ & _ & _ & Hh & _ & Hauth & _).
    exists (spread2 (VObj a) (axiosConfig c)), h.
    split; [exact Hrun|]. split.
    + rewrite dispatched_keep by exact Hk. exact Hh.
    + rewrite Hauth, Hc. reflexivity.
Qed.

(** C4, amended, at two concrete clients: one built by [index.mjs] with a
    token, one built by the compiled build without. *)
Lemma C4_authorization_header_witness :
  (exists o h,
      @Mjs.invoke node_platform (Get (VStr "products") VUndefined)
        (configured (VObj [("url", VStr "https://shop.example.com");
                           ("jwtToken", VStr "secret")]))
      = (Normal (VObj o),
         configured (VObj [("url", VStr "https://shop.example.com");
                           ("jwtToken", VStr "secret")]))
      /\ obj_find o "headers" = Some (VObj h)
      /\ obj_find h "Authorization" = Some (VStr "Bearer secret"))
  /\
  (exists o h,
      @Dist.invoke node_platform (Get (VStr "products") VUndefined)
        (configured (VObj [("url", VStr "https://shop.example.com")]))
      = (Normal (VObj o),
         configured (VObj [("url", VStr "https://shop.example.com")]))
      /\ obj_find o "headers" = Some (VObj h)
      /\ obj_find h "Authorization" = None).
Proof.
  split.
  - exact (proj2
             (proj1
                (@C4_authorization_header node_platform
                   (VObj [("url", VStr "https://shop.example.com");
                          ("jwtToken", VStr "secret")])
                   (configured
                      (VObj [("url", VStr "https://shop.example.com");
                             ("jwtToken", VStr "secret")]))
                   "https://shop.example.com"
                   (Get (VStr "products") VUndefined) eq_refl eq_refl
                   eq_refl)
                eq_refl)).
  - exact (proj2
             (@C4_authorization_header node_platform
                (VObj [("url", VStr "https://shop.example.com")])
                (configured (VObj [("url", VStr "https://shop.example.com")]))
                "https://shop.example.com"
                (Get (VStr "products") VUndefined) eq_refl eq_refl eq_refl)
             eq_refl).
Defined.

(** C8, as stated, fails: the body [0] is not [null], yet the request is
    dispatched without [data] and without a [Content-Type] header. *)
Lemma C8_falsy_body_is_not_sent :
  let c := configured (VObj [("url", VStr "https://shop.example.com");
                             ("jwtToken", VStr "secret")]) in
  exists o h,
    @Mjs.post node_platform (VStr "products/7/stock") (VNum 0) VUndefined c
    = (Normal (VObj o), c)
    /\ @Dist.post node_platform (VStr "products/7/stock") (VNum 0) VUndefined c
       = (Normal (VObj o), c)
    /\ obj_find o "data" = None
    /\ obj_find o "headers" = Some (VObj h)
    /\ obj_find h "Content-Type" = None.
Proof.
  cbv zeta. do 2 eexists. split; [lazy; reflexivity|].
  split; [reflexivity|]. repeat split.
Qed.

(** C8, amended: on a client whose [url] is a string and whose URL and
    header parts convert to strings, when [axiosConfig] has neither
    [headers] nor [data] of its own, a request whose body is truthy is dispatched with
    [Content-Type] equal to ["application/json;charset=utf-8"] and with
    [data] equal to [JSON.stringify] of the body; a request whose body is
    falsy ([null], [undefined], [false], [0], the empty string) is
    dispatched with neither.  [get], [delete] and [options] pass [null]. *)
Theorem C8_body_and_content_type {P : Platform}
        (c : client) (u : string) (cl : call) :
  url c = VStr u ->
  request_converts c (call_endpoint cl) = true ->
  has_key (axiosConfig c) "headers" = false ->
  has_key (axiosConfig c) "data" = false ->
  (exists o h,
      Mjs.invoke cl c = (Normal (VObj o), c)
      /\ obj_find o "headers" = Some (VObj h)
      /\ obj_find h "Content-Type"
         = (if truthy (call_data cl)
            then Some (VStr "application/json;charset=utf-8") else None)
      /\ obj_find o "data"
         = (if truthy (call_data cl)
            then Some (JSON_stringify (call_data cl)) else None))
  /\ (exists o h,
         Dist.invoke cl c = (Normal (VObj o), c)
         /\ obj_find o "headers" = Some (VObj h)
         /\ obj_find h "Content-Type"
            = (if truthy (call_data cl)
               then Some (VStr "application/json;charset=utf-8") else None)
         /\ obj_find o "data"
            = (if truthy (call_data cl)
               then Some (JSON_stringify (call_data cl)) else None)).
Proof.
  intros Hu Hc Hh Hd. split.
  - rewrite mjs_invoke_request.
    destruct (mjs_request_assembled c u (VStr (call_method cl))
                (call_endpoint cl) (call_data cl) (call_params cl) Hu Hc)
      as (a & h & Hrun & _ & _ & Hdata & Hhead & _ & _ & Hct).
    exists (spread2 (VObj a) (axiosConfig c)), h.
    split; [exact Hrun|].
    rewrite !dispatched_keep by assumption. auto.
  - rewrite dist_invoke_request.
    destruct (dist_request_assembled c u (VStr (call_method cl))
                (call_endpoint cl) (call_data cl) (call_params cl) Hu Hc)
      as (a & h & Hrun & _ & _ & Hdata & Hhead & _ & _ & Hct).
    exists (spread2 (VObj a) (axiosConfig c)), h.
    split; [exact Hrun|].
    rewrite !dispatched_keep by assumption. auto.
Qed.

(** C8, amended, at a concrete [post] with an object body. *)
Lemma C8_body_and_content_type_witness :
  let c := configured (VObj [("url", VStr "https://shop.example.com");
                             ("jwtToken", VStr "secret")]) in
  exists o h,
    @Mjs.invoke node_platform
      (Post (VStr "products") (VObj [("name", VStr "Mug")]) VUndefined) c
    = (Normal (VObj o), c)
    /\ obj_find o "headers" = Some (VObj h)
    /\ obj_find h "Content-Type"
       = Some (VStr "application/json;charset=utf-8")
    /\ obj_find o "data"
       = Some (VStr ("{" ++ dquote ++ "name" ++ dquote ++ ":"
                         ++ dquote ++ "Mug" ++ dquote ++ "}")).
Proof.
  exact (proj1
           (@C8_body_and_content_type node_platform
              (configured (VObj [("url", VStr "https://shop.example.com");
                                 ("jwtToken", VStr "secret")]))
              "https://shop.example.com"
              (Post (VStr "products") (VObj [("name", VStr "Mug")])
                    VUndefined)
              eq_refl eq_refl eq_refl eq_refl)).
Defined.

(* ------------------------------------------------------------------ *)
(** *** The URL *)

Lemma composed_url_with_slash {P : Platform}
      (b : string) (c : client) (e : value) :
  composed_url (b ++ "/") c e
  = b ++ "/" ++ toStr (wpAPIPrefix c) ++ "/" ++ toStr (version c) ++ "/"
      ++ toStr e.
Proof.
  unfold composed_url.
  change (b ++ "/") with (b ++ String "/" "") at 1.
  rewrite slice_last_snoc. simpl String.eqb. cbv iota.
  now rewrite !str_app_assoc.
Qed.

Lemma composed_url_without_slash {P : Platform}
      (u : string) (c : client) (e : value) :
  (forall b, u <> b ++ "/") ->
  composed_url u c e
  = u ++ "/" ++ toStr (wpAPIPrefix c) ++ "/" ++ toStr (version c) ++ "/"
      ++ toStr e.
Proof.
  intros Hno. unfold composed_url.
  destruct (String.eqb (slice_last u) "/") eqn:E.
  - apply String.eqb_eq in E. destruct (slice_last_inv u "/" E) as [b Hb].
    now destruct (Hno b).
  - now rewrite !str_app_assoc.
Qed.

(** C6: for a base URL that is a string, and a prefix, version, endpoint
    and port that convert to strings, the URL is composed as base, prefix,
    version, endpoint, in that order and joined by single slashes: a base that ends in a slash is
    followed directly by the prefix, a base that does not gets one slash
    first.  This is the text the port step receives; with no port
    override the port step returns it as it is.  On the example of the
    specification the result is
    [https://shop.example.com/wp-json/wc/v3/products]. *)
Theorem C6_url_composition {P : Platform}
        (c : client) (u : string) (e p : value) :
  url c = VStr u ->
  url_converts c e = true ->
  let rest :=
    toStr (wpAPIPrefix c) ++ "/" ++ toStr (version c) ++ "/" ++ toStr e in
  (forall b, u = b ++ "/" ->
             _getUrl e p c = (Normal (port_step c (b ++ "/" ++ rest)), c))
  /\ ((forall b, u <> b ++ "/") ->
      _getUrl e p c = (Normal (port_step c (u ++ "/" ++ rest)), c))
  /\ (port c = VStr "" -> forall x, port_step c x = x)
  /\ (let opt := VObj [("url", VStr "https://shop.example.com");
                       ("wpAPIPrefix", VStr "wp-json");
                       ("version", VStr "wc/v3");
                       ("jwtToken", VStr "secret")] in
      exists c0,
        Mjs.new opt = Normal c0 /\ Dist.new opt = Normal c0
        /\ _getUrl (VStr "products") VUndefined c0
           = (Normal "https://shop.example.com/wp-json/wc/v3/products", c0)).
Proof.
  intros Hu Hc rest. subst rest. repeat split.
  - intros b Hb. rewrite (_getUrl_string c u e p Hu Hc). subst u.
    now rewrite composed_url_with_slash.
  - intros Hno. rewrite (_getUrl_string c u e p Hu Hc).
    now rewrite composed_url_without_slash.
  - intros Hp x. unfold port_step. now rewrite Hp.
  - cbv zeta. eexists. split; [reflexivity|]. split; reflexivity.
Qed.

(** C6 at a base that already ends in a slash: no second slash. *)
Lemma C6_url_composition_witness :
  let c := configured (VObj [("url", VStr "https://shop.example.com/");
                             ("jwtToken", VStr "secret")]) in
  @_getUrl node_platform (VStr "products") VUndefined c
  = (Normal "https://shop.example.com/wp-json/wc/v3/products", c).
Proof.
  exact (proj1
           (@C6_url_composition node_platform
              (configured (VObj [("url", VStr "https://shop.example.com/");
                                 ("jwtToken", VStr "secret")]))
              "https://shop.example.com/" (VStr "products") VUndefined
              eq_refl eq_refl)
           "https://shop.example.com" eq_refl).
Defined.

(** The reference parser finds the host of every URL composed on the base
    [https://shop.example.com/]. *)
Lemma hostname_of_shop (tail : string) :
  hostname_of ("https://shop.example.com/" ++ tail) = "shop.example.com".
Proof. reflexivity. Qed.

(** C7: with port [8080] and base [https://shop.example.com/], for a
    prefix, version and endpoint that convert to strings, the URL
    for an endpoint is the composed URL with [:8080] after the host: it
    starts with [https://shop.example.com:8080/] and goes on as the
    composed URL does after its host.  The host is the one the URL parser
    reports for the composed URL. *)
Theorem C7_port_after_host {P : Platform} (c : client) (e p : value) :
  url c = VStr "https://shop.example.com/" ->
  port c = VNum 8080 ->
  url_converts c e = true ->
  url_hostname (composed_url "https://shop.example.com/" c e)
  = "shop.example.com" ->
  let rest :=
    toStr (wpAPIPrefix c) ++ "/" ++ toStr (version c) ++ "/" ++ toStr e in
  composed_url "https://shop.example.com/" c e
  = "https://shop.example.com/" ++ rest
  /\ _getUrl e p c = (Normal ("https://shop.example.com:8080/" ++ rest), c).
Proof.
  intros Hu Hp Hcv Hh rest. subst rest.
  assert (Hc : composed_url "https://shop.example.com/" c e
               = "https://" ++ "shop.example.com"
                   ++ ("/" ++ toStr (wpAPIPrefix c) ++ "/"
                       ++ toStr (version c) ++ "/" ++ toStr e)).
  { exact (composed_url_with_slash "https://shop.example.com" c e). }
  split; [exact Hc|].
  rewrite (_getUrl_string c _ e p Hu Hcv). unfold port_step.
  rewrite Hh, Hp, Hc. cbv [strict_eq_str negb].
  rewrite js_replace_leftmost; reflexivity.
Qed.

(** C7 on the reference runtime, for a client built with port [8080]. *)
Lemma C7_port_after_host_witness :
  let c := configured (VObj [("url", VStr "https://shop.example.com/");
                             ("jwtToken", VStr "secret");
                             ("port", VNum 8080)]) in
  @_getUrl node_platform (VStr "products") VUndefined c
  = (Normal "https://shop.example.com:8080/wp-json/wc/v3/products", c).
Proof.
  exact (proj2
           (@C7_port_after_host node_platform
              (configured (VObj [("url", VStr "https://shop.example.com/");
                                 ("jwtToken", VStr "secret");
                                 ("port", VNum 8080)]))
              (VStr "products") VUndefined eq_refl eq_refl eq_refl eq_refl)).
Defined.

(** C3, as stated, fails: when the host name recurs as the endpoint, the
    port goes after the first occurrence and the second is left as it
    was. *)
Lemma C3_second_occurrence_is_untouched :
  let c := configured (VObj [("url", VStr "https://shop.example.com");
                             ("jwtToken", VStr "secret");
                             ("port", VNum 8080)]) in
  @url_hostname node_platform
    (@composed_url node_platform "https://shop.example.com" c
       (VStr "shop.example.com"))
  = "shop.example.com"
  /\ @_getUrl node_platform (VStr "shop.example.com") VUndefined c
     = (Normal "https://shop.example.com:8080/wp-json/wc/v3/shop.example.com",
        c)
  /\ "https://shop.example.com:8080/wp-json/wc/v3/shop.example.com"
     <> "https://shop.example.com:8080/wp-json/wc/v3/shop.example.com:8080".
Proof. cbv zeta. split; [reflexivity|]. split; [reflexivity|]. discriminate. Qed.

Lemma js_replace_at_leftmost (h pre post repl : string) :
  occurrences h (pre ++ h) = 1 ->
  js_replace (pre ++ h ++ post) h repl
  = pre ++ getSubstitution h pre post repl ++ post.
Proof.
  intros Hocc. unfold js_replace.
  now rewrite (split_first_leftmost h pre post Hocc).
Qed.

(** C3, amended: with a port override, on a client whose [url] is a
    string and whose prefix, version, endpoint and port convert to
    strings, the leftmost occurrence of the host name in the composed URL
    is the only one rewritten: whatever follows that occurrence, further
    occurrences of the host name included, is kept as it is.  What takes
    the place of that occurrence is the replacement text [host:port] as
    [replace] reads it, with [$$], [$&], [$`] and [$'] expanded; when
    the host name and the port are free of [$] it is [host:port]
    itself. *)
Theorem C3_port_after_leftmost_occurrence_only {P : Platform}
        (c : client) (u : string) (e p : value) (pre post : string) :
  url c = VStr u ->
  url_converts c e = true ->
  strict_eq_str (port c) "" = false ->
  let h := url_hostname (composed_url u c e) in
  composed_url u c e = pre ++ h ++ post ->
  occurrences h (pre ++ h) = 1 ->
  _getUrl e p c
  = (Normal (pre ++ getSubstitution h pre post (h ++ ":" ++ toStr (port c))
               ++ post), c)
  /\ (no_dollar (h ++ ":" ++ toStr (port c)) = true ->
      _getUrl e p c
      = (Normal (pre ++ h ++ ":" ++ toStr (port c) ++ post), c)).
Proof.
  intros Hu Hcv Hp h Hc Hocc.
  rewrite (_getUrl_string c u e p Hu Hcv). unfold port_step. rewrite Hp.
  cbv [negb]. fold h. rewrite Hc.
  rewrite js_replace_at_leftmost by assumption.
  split; [reflexivity|].
  intros Hnd. rewrite getSubstitution_literal by exact Hnd.
  now rewrite !str_app_assoc.
Qed.

(** C3, amended, on the example whose endpoint repeats the host name. *)
Lemma C3_port_after_leftmost_occurrence_only_witness :
  let c := configured (VObj [("url", VStr "https://shop.example.com");
                             ("jwtToken", VStr "secret");
                             ("port", VNum 8080)]) in
  @_getUrl node_platform (VStr "shop.example.com") VUndefined c
  = (Normal ("https://" ++ "shop.example.com" ++ ":" ++ "8080"
               ++ "/wp-json/wc/v3/shop.example.com"), c).
Proof.
  exact (proj2
           (@C3_port_after_leftmost_occurrence_only node_platform
              (configured (VObj [("url", VStr "https://shop.example.com");
                                 ("jwtToken", VStr "secret");
                                 ("port", VNum 8080)]))
              "https://shop.example.com" (VStr "shop.example.com") VUndefined
              "https://" "/wp-json/wc/v3/shop.example.com"
              eq_refl eq_refl eq_refl eq_refl eq_refl)
           eq_refl).
Defined.

(* ================================================================== *)
(** ** Further properties *)
(* ================================================================== *)

Lemma truthy_js_or (a d : value) : truthy (js_or a d) = truthy a || truthy d.
Proof. unfold js_or. destruct (truthy a) eqn:E; [now rewrite E | reflexivity]. Qed.

Lemma constructed_configured (opt : value) (c : client) :
  constructed opt c ->
  c = configured opt /\ truthy (js_get opt "url") = true.
Proof.
  intros [H|H].
  - destruct (mjs_new_normal opt c H) as (Hc & Hu & _). now split.
  - exact (dist_new_normal opt c H).
Qed.

Lemma with_axiosConfig_same (c : client) : with_axiosConfig (axiosConfig c) c = c.
Proof. destruct c; reflexivity. Qed.

Section MoreRequestFacts.

Context {P : Platform}.

Ltac run_request_at cfg Hu Hurl :=
  unfold Mjs._request, Dist._request;
  unfold bind at 1;
  rewrite (_getUrl_string (with_axiosConfig cfg _) _ _ _ Hu Hurl);
  unfold port_step, composed_url.

Ltac run_steps :=
  repeat progress
    (cbv beta iota zeta delta [bind read ret throw ToString];
     cbn [with_axiosConfig url port wpAPIPrefix version classVersion encoding
          timeout jwtToken axiosConfig];
     repeat match goal with
            | H : _ = true |- _ => rewrite H
            | H : _ = false |- _ => rewrite H
            end).

(** Everything [_request] of [index.mjs] assembles is fixed by the client's
    other fields and the arguments; [axiosConfig] enters at the final merge
    only. *)
Lemma mjs_request_settings (c : client) (u : string) (m e d p : value) :
  url c = VStr u ->
  request_converts c e = true ->
  exists (a h : props),
    (forall cfg,
        Mjs._request m e d p (with_axiosConfig cfg c) =
        (Normal (VObj (spread2 (VObj a) cfg)), with_axiosConfig cfg c))
    /\ obj_find a "url" = Some (VStr (port_step c (composed_url u c e)))
    /\ obj_find a "method" = Some m
    /\ obj_find a "responseEncoding" = Some (encoding c)
    /\ obj_find a "timeout" = Some (timeout c)
    /\ obj_find a "responseType" = Some (VStr "json")
    /\ obj_find a "data"
       = (if truthy d then Some (JSON_stringify d) else None)
    /\ obj_find a "headers" = Some (VObj h)
    /\ obj_find h "Accept" = Some (VStr "application/json")
    /\ obj_find h "User-Agent"
       = (if node_process
          then Some (VStr ("WooCommerce REST API - JS Client/"
                             ++ toStr (classVersion c)))
          else None)
    /\ obj_find h "Content-Type"
       = (if truthy d
          then Some (VStr "application/json;charset=utf-8") else None).
Proof.
  intros Hu Hc.
  destruct (request_converts_parts c e Hc) as (Hurl & Hcv & Htok).
  destruct node_process eqn:Hn, (truthy d) eqn:Hd;
    do 2 eexists;
    (split;
     [intros cfg;
      assert (Hu' : url (with_axiosConfig cfg c) = VStr u) by exact Hu;
      assert (Hurl' : url_converts (with_axiosConfig cfg c) e = true)
        by exact Hurl;
      run_request_at cfg Hu' Hurl'; clear Hc Hurl Hurl'; run_steps;
      reflexivity
     | unfold port_step, composed_url; repeat split; reflexivity]).
Qed.

Lemma dist_request_settings (c : client) (u : string) (m e d p : value) :
  url c = VStr u ->
  request_converts c e = true ->
  exists (a h : props),
    (forall cfg,
        Dist._request m e d p (with_axiosConfig cfg c) =
        (Normal (VObj (spread2 (VObj a) cfg)), with_axiosConfig cfg c))
    /\ obj_find a "url" = Some (VStr (port_step c (composed_url u c e)))
    /\ obj_find a "method" = Some m
    /\ obj_find a "responseEncoding" = Some (encoding c)
    /\ obj_find a "timeout" = Some (timeout c)
    /\ obj_find a "responseType" = Some (VStr "json")
    /\ obj_find a "data"
       = (if truthy d then Some (JSON_stringify d) else None)
    /\ obj_find a "headers" = Some (VObj h)
    /\ obj_find h "Accept" = Some (VStr "application/json")
    /\ obj_find h "User-Agent"
       = (if node_process
          then Some (VStr ("WooCommerce REST API - JS Client/"
                             ++ toStr (classVersion c)))
          else None)
    /\ obj_find h "Content-Type"
       = (if truthy d
          then Some (VStr "application/json;charset=utf-8") else None).
Proof.
  intros Hu Hc.
  destruct (request_converts_parts c e Hc) as (Hurl & Hcv & Htok).
  destruct node_process eqn:Hn, (truthy d) eqn:Hd,
           (truthy (jwtToken c)) eqn:Ht;
    do 2 eexists;
    (split;
     [intros cfg;
      assert (Hu' : url (with_axiosConfig cfg c) = VStr u) by exact Hu;
      assert (Hurl' : url_converts (with_axiosConfig cfg c) e = true)
        by exact Hurl;
      run_request_at cfg Hu' Hurl'; clear Hc Hurl Hurl'; run_steps;
      reflexivity
     | unfold port_step, composed_url; repeat split; reflexivity]).
Qed.

End MoreRequestFacts.

(* ------------------------------------------------------------------ *)
(** *** Construction, continued *)

(** X1: a constructed client never holds a falsy [url], [wpAPIPrefix],
    [version], [encoding] or [axiosConfig]: a falsy option is replaced by
    its default.  Its [port] is either truthy or the empty string, and its
    [classVersion] is ["1.0.1"]. *)
Theorem constructed_fields_are_set (opt : value) (c : client) :
  constructed opt c ->
  classVersion c = VStr "1.0.1"
  /\ truthy (url c) = true
  /\ truthy (wpAPIPrefix c) = true
  /\ truthy (version c) = true
  /\ truthy (encoding c) = true
  /\ truthy (axiosConfig c) = true
  /\ (truthy (port c) = true \/ port c = VStr "").
Proof.
  intros H. destruct (constructed_configured opt c H) as [-> Hu].
  cbn [configured classVersion url wpAPIPrefix version encoding axiosConfig
       port].
  repeat split; try assumption;
    try (rewrite truthy_js_or; apply orb_true_r).
  unfold js_or. destruct (truthy (js_get opt "port")) eqn:E; [left|right];
    [exact E | reflexivity].
Qed.

Lemma constructed_fields_are_set_witness :
  truthy (wpAPIPrefix
            (configured (VObj [("url", VStr "https://shop.example.com");
                               ("wpAPIPrefix", VStr "")])))
  = true.
Proof.
  exact (proj1 (proj2 (proj2
           (constructed_fields_are_set
              (VObj [("url", VStr "https://shop.example.com");
                     ("wpAPIPrefix", VStr "")])
              (configured (VObj [("url", VStr "https://shop.example.com");
                                 ("wpAPIPrefix", VStr "")]))
              (or_intror eq_refl))))).
Defined.

(** X2: a falsy [port] option ([0], the empty string, [null], absent) is
    no port override: on a client whose [url] is a string and whose
    prefix, version and endpoint convert to strings, the URL is the
    composed one and the URL parser is not consulted. *)
Theorem falsy_port_is_no_override {P : Platform}
        (opt : value) (c : client) (u : string) (e p : value) :
  constructed opt c ->
  truthy (js_get opt "port") = false ->
  url c = VStr u ->
  url_converts c e = true ->
  _getUrl e p c = (Normal (composed_url u c e), c).
Proof.
  intros H Hp Hu Hcv. rewrite (_getUrl_string c u e p Hu Hcv).
  destruct (constructed_configured opt c H) as [Hc _].
  unfold port_step. rewrite Hc at 1.
  cbn [configured port]. unfold js_or. rewrite Hp. reflexivity.
Qed.

Lemma falsy_port_is_no_override_witness :
  @_getUrl node_platform (VStr "orders") VUndefined
    (configured (VObj [("url", VStr "https://shop.example.com");
                       ("jwtToken", VStr "secret"); ("port", VNum 0)]))
  = (Normal "https://shop.example.com/wp-json/wc/v3/orders",
     configured (VObj [("url", VStr "https://shop.example.com");
                       ("jwtToken", VStr "secret"); ("port", VNum 0)])).
Proof.
  exact (@falsy_port_is_no_override node_platform
           (VObj [("url", VStr "https://shop.example.com");
                  ("jwtToken", VStr "secret"); ("port", VNum 0)])
           (configured (VObj [("url", VStr "https://shop.example.com");
                              ("jwtToken", VStr "secret"); ("port", VNum 0)]))
           "https://shop.example.com" (VStr "orders") VUndefined
           (or_introl eq_refl) eq_refl eq_refl eq_refl).
Defined.

Lemma string_of_uint_not_url (d : Decimal.uint) :
  String.eqb (NilZero.string_of_uint d) "url" = false.
Proof. destruct d; reflexivity. Qed.

Lemma str_entries_no_url (s : string) (i : nat) :
  obj_find (str_entries i s) "url" = None.
Proof.
  revert i. induction s as [|ch s IH]; intros i; simpl.
  - reflexivity.
  - unfold string_of_nat. rewrite string_of_uint_not_url. apply IH.
Qed.

Lemma non_object_has_no_url (opt : value) :
  is_object opt = false ->
  truthy (js_get (js_or opt (VObj [])) "url") = false.
Proof.
  intros H. destruct opt as [| |b|n|s|o]; try discriminate H;
    unfold js_or; simpl truthy.
  - reflexivity.
  - reflexivity.
  - destruct b; reflexivity.
  - destruct (negb (Z.eqb n 0)); reflexivity.
  - destruct (negb (String.eqb s "")); [|reflexivity].
    simpl. now rewrite str_entries_no_url.
Qed.

(** X3: construction from anything but an object (no argument, [null], a
    number, a boolean, a string) throws [OptionsException] with the
    message ["url is required"], in both texts: reading [opt.url] never
    fails, it finds nothing. *)
Theorem construction_needs_an_object (opt : value) :
  is_object opt = false ->
  Mjs.new opt = Throw (OptionsException "url is required")
  /\ Dist.new opt = Throw (OptionsException "url is required").
Proof.
  intros H. rewrite mjs_new_outcome, dist_new_outcome. cbv zeta.
  now rewrite (non_object_has_no_url opt H).
Qed.

Lemma construction_needs_an_object_witness :
  Mjs.new VUndefined = Throw (OptionsException "url is required")
  /\ Dist.new (VStr "https://shop.example.com")
     = Throw (OptionsException "url is required").
Proof.
  split.
  - exact (proj1 (construction_needs_an_object VUndefined eq_refl)).
  - exact (proj2 (construction_needs_an_object
                    (VStr "https://shop.example.com") eq_refl)).
Defined.

Lemma truthy_property_truthy_owner (opt : value) (k : string) :
  truthy (js_get opt k) = true -> truthy opt = true.
Proof.
  destruct opt as [| |b|n|s|o]; simpl; try discriminate; try reflexivity.
  destruct s; [|reflexivity]. simpl.
  destruct (String.eqb k "length"); discriminate.
Qed.

(** X4: the two constructors differ by the token guard alone: what
    [index.mjs] accepts, the compiled build accepts with the same
    resulting client, and what the compiled build accepts with a truthy
    token, [index.mjs] accepts. *)
Theorem constructors_differ_by_token_guard (opt : value) (c : client) :
  Mjs.new opt = Normal c <->
  Dist.new opt = Normal c /\ truthy (jwtToken c) = true.
Proof.
  split.
  - intros H. destruct (mjs_new_normal opt c H) as (Hc & Hu & Ht).
    split.
    + rewrite dist_new_outcome. cbv zeta.
      rewrite (js_or_truthy opt (VObj [])
                 (truthy_property_truthy_owner opt "url" Hu)).
      now rewrite Hu, Hc.
    + now rewrite Hc.
  - intros [H Ht]. destruct (dist_new_normal opt c H) as (Hc & Hu).
    rewrite mjs_new_outcome. cbv zeta.
    assert (Ho : js_or opt (VObj []) = opt).
    { rewrite dist_new_outcome in H. cbv zeta in H.
      destruct (truthy (js_get (js_or opt (VObj [])) "url")) eqn:E;
        [|discriminate H].
      exact (js_or_truthy opt (VObj []) (truthy_url_truthy_opt opt E)). }
    rewrite Ho, Hu. rewrite Hc in Ht. cbn [configured jwtToken] in Ht.
    now rewrite Ht, Hc.
Qed.

(* ------------------------------------------------------------------ *)
(** *** Requests, continued *)

Section MoreRequests.

Context {P : Platform}.

Lemma mjs_invoke_state (cl : call) (c : client) : snd (Mjs.invoke cl c) = c.
Proof. rewrite mjs_invoke_request. apply mjs_request_state. Qed.

Lemma dist_invoke_state (cl : call) (c : client) : snd (Dist.invoke cl c) = c.
Proof. rewrite dist_invoke_request. apply dist_request_state. Qed.

(** X5: with a truthy token on the client, the two texts of [_request]
    behave alike on every call: the same options dispatched, or the same
    exception.  They differ for a client without a token only. *)
Theorem requests_agree_when_token_set (c : client) (cl : call) :
  truthy (jwtToken c) = true ->
  Mjs.invoke cl c = Dist.invoke cl c.
Proof.
  intros Ht. rewrite mjs_invoke_request, dist_invoke_request.
  unfold Mjs._request, Dist._request.
  cbv beta iota zeta delta [bind read ret throw ToString].
  pose proof (_getUrl_state c (call_endpoint cl)
                (default_arg (call_params cl) (VObj []))) as Hs.
  destruct (_getUrl (call_endpoint cl)
              (default_arg (call_params cl) (VObj [])) c) as [[s|x] c'];
    simpl in Hs; subst c'; [|reflexivity].
  destruct node_process;
    repeat match goal with
           | |- context [if converts ?v then _ else _] =>
               destruct (converts v)
           end;
    rewrite ?Ht; reflexivity.
Qed.

(** X6: calls do not influence each other: in a sequence of calls on one
    client, each call returns or throws what it would as the only call. *)
Theorem calls_are_independent (c : client) (cs : list call) :
  fst (run Mjs.invoke cs c) = map (fun cl => fst (Mjs.invoke cl c)) cs
  /\ fst (run Dist.invoke cs c) = map (fun cl => fst (Dist.invoke cl c)) cs.
Proof.
  split.
  - induction cs as [|cl cs IH]; simpl; [reflexivity|].
    pose proof (mjs_invoke_state cl c) as Hs.
    destruct (Mjs.invoke cl c) as [r c1]. simpl in Hs. subst c1.
    destruct (run Mjs.invoke cs c) as [rs c2]. simpl in *. now rewrite IH.
  - induction cs as [|cl cs IH]; simpl; [reflexivity|].
    pose proof (dist_invoke_state cl c) as Hs.
    destruct (Dist.invoke cl c) as [r c1]. simpl in Hs. subst c1.
    destruct (run Dist.invoke cs c) as [rs c2]. simpl in *. now rewrite IH.
Qed.

(** X7: on a client whose [url] is not a string (a number, a boolean, a
    plain object: all pass the constructor when truthy), every call throws
    [TypeError] from [this.url.slice] and nothing is dispatched. *)
Theorem non_string_url_throws (c : client) (cl : call) :
  String.eqb (typeof (url c)) "string" = false ->
  Mjs.invoke cl c = (Throw TypeError, c)
  /\ Dist.invoke cl c = (Throw TypeError, c).
Proof.
  intros Hu. rewrite mjs_invoke_request, dist_invoke_request.
  assert (Hg : forall e p, _getUrl e p c = (Throw TypeError, c)).
  { intros e p. unfold _getUrl, bind, read, throw, ToString.
    destruct (converts (wpAPIPrefix c)); [|reflexivity].
    cbv beta iota zeta delta [ret].
    destruct (url c); try discriminate Hu; reflexivity. }
  unfold Mjs._request, Dist._request.
  cbv beta iota zeta delta [bind]. rewrite !Hg. split; reflexivity.
Qed.

Ltac settle_mjs c u m e d p Hu Hc :=
  destruct (mjs_request_settings c u m e d p Hu Hc)
    as (a & h & Hrun & Hurl & Hm & Henc & Htmo & Hrt & Hdata & Hh & Hacc
        & Hua & Hct);
  pose proof (Hrun (axiosConfig c)) as Hrun';
  rewrite with_axiosConfig_same in Hrun'.

Ltac settle_dist c u m e d p Hu Hc :=
  destruct (dist_request_settings c u m e d p Hu Hc)
    as (a & h & Hrun & Hurl & Hm & Henc & Htmo & Hrt & Hdata & Hh & Hacc
        & Hua & Hct);
  pose proof (Hrun (axiosConfig c)) as Hrun';
  rewrite with_axiosConfig_same in Hrun'.

Lemma mjs_request_method (c : client) (u name : string) (e d p : value) :
  url c = VStr u ->
  request_converts c e = true ->
  has_key (axiosConfig c) "method" = false ->
  dispatches_method (Mjs._request (VStr name) e d p c) c name.
Proof.
  intros Hu Hc Hk. settle_mjs c u (VStr name) e d p Hu Hc.
  eexists. split; [exact Hrun'|]. now rewrite dispatched_keep.
Qed.

Lemma dist_request_method (c : client) (u name : string) (e d p : value) :
  url c = VStr u ->
  request_converts c e = true ->
  has_key (axiosConfig c) "method" = false ->
  dispatches_method (Dist._request (VStr name) e d p c) c name.
Proof.
  intros Hu Hc Hk. settle_dist c u (VStr name) e d p Hu Hc.
  eexists. split; [exact Hrun'|]. now rewrite dispatched_keep.
Qed.

(** X8: each verb method dispatches under its own name: [get] with method
    ["get"], [post] with ["post"], [put] with ["put"], [delete] with
    ["delete"], [options] with ["options"], unless [axiosConfig] names a
    method. *)
Theorem verbs_dispatch_their_method (c : client) (u : string) (e d p : value) :
  url c = VStr u ->
  request_converts c e = true ->
  has_key (axiosConfig c) "method" = false ->
  (dispatches_method (Mjs.get e p c) c "get"
   /\ dispatches_method (Mjs.post e d p c) c "post"
   /\ dispatches_method (Mjs.put e d p c) c "put"
   /\ dispatches_method (Mjs.delete e p c) c "delete"
   /\ dispatches_method (Mjs.options e p c) c "options")
  /\ (dispatches_method (Dist.get e p c) c "get"
      /\ dispatches_method (Dist.post e d p c) c "post"
      /\ dispatches_method (Dist.put e d p c) c "put"
      /\ dispatches_method (Dist.delete e p c) c "delete"
      /\ dispatches_method (Dist.options e p c) c "options").
Proof.
  intros Hu Hc Hk.
  unfold Mjs.get, Mjs.post, Mjs.put, Mjs.delete, Mjs.options,
         Dist.get, Dist.post, Dist.put, Dist.delete, Dist.options.
  split.
  - repeat match goal with |- _ /\ _ => split end;
      exact (mjs_request_method c u _ _ _ _ Hu Hc Hk).
  - repeat match goal with |- _ /\ _ => split end;
      exact (dist_request_method c u _ _ _ _ Hu Hc Hk).
Qed.

Lemma mjs_request_null_body (c : client) (u : string) (m e p : value) :
  url c = VStr u ->
  request_converts c e = true ->
  has_key (axiosConfig c) "data" = false ->
  has_key (axiosConfig c) "headers" = false ->
  dispatches_no_body (Mjs._request m e VNull p c) c.
Proof.
  intros Hu Hc Hd Hk. settle_mjs c u m e VNull p Hu Hc.
  exists (spread2 (VObj a) (axiosConfig c)), h.
  split; [exact Hrun'|]. rewrite !dispatched_keep by assumption. auto.
Qed.

Lemma dist_request_null_body (c : client) (u : string) (m e p : value) :
  url c = VStr u ->
  request_converts c e = true ->
  has_key (axiosConfig c) "data" = false ->
  has_key (axiosConfig c) "headers" = false ->
  dispatches_no_body (Dist._request m e VNull p c) c.
Proof.
  intros Hu Hc Hd Hk. settle_dist c u m e VNull p Hu Hc.
  exists (spread2 (VObj a) (axiosConfig c)), h.
  split; [exact Hrun'|]. rewrite !dispatched_keep by assumption. auto.
Qed.

(** X9: [get], [delete] and [options] send no body: whatever their
    arguments, the dispatched options have no [data] and the headers no
    [Content-Type], unless [axiosConfig] brings its own. *)
Theorem bodiless_verbs_send_no_body (c : client) (u : string) (e p : value) :
  url c = VStr u ->
  request_converts c e = true ->
  has_key (axiosConfig c) "data" = false ->
  has_key (axiosConfig c) "headers" = false ->
  (dispatches_no_body (Mjs.get e p c) c
   /\ dispatches_no_body (Mjs.delete e p c) c
   /\ dispatches_no_body (Mjs.options e p c) c)
  /\ (dispatches_no_body (Dist.get e p c) c
      /\ dispatches_no_body (Dist.delete e p c) c
      /\ dispatches_no_body (Dist.options e p c) c).
Proof.
  intros Hu Hc Hd Hk.
  unfold Mjs.get, Mjs.delete, Mjs.options, Dist.get, Dist.delete,
         Dist.options.
  split.
  - repeat match goal with |- _ /\ _ => split end;
      exact (mjs_request_null_body c u _ _ _ Hu Hc Hd Hk).
  - repeat match goal with |- _ /\ _ => split end;
      exact (dist_request_null_body c u _ _ _ Hu Hc Hd Hk).
Qed.

(** X10: the [url] given to the transport is the string [_getUrl] returns
    for the call's endpoint, unless [axiosConfig] names a [url]. *)
Theorem dispatched_url_is_getUrl (c : client) (u : string) (cl : call) :
  url c = VStr u ->
  request_converts c (call_endpoint cl) = true ->
  has_key (axiosConfig c) "url" = false ->
  exists s,
    _getUrl (call_endpoint cl) (call_params cl) c = (Normal s, c)
    /\ (exists o, Mjs.invoke cl c = (Normal (VObj o), c)
                  /\ obj_find o "url" = Some (VStr s))
    /\ (exists o, Dist.invoke cl c = (Normal (VObj o), c)
                  /\ obj_find o "url" = Some (VStr s)).
Proof.
  intros Hu Hc Hk. eexists.
  split; [exact (_getUrl_string c u _ _ Hu
                   (proj1 (request_converts_parts _ _ Hc)))|].
  rewrite mjs_invoke_request, dist_invoke_request. split.
  - settle_mjs c u (VStr (call_method cl)) (call_endpoint cl) (call_data cl)
               (call_params cl) Hu Hc.
    eexists. split; [exact Hrun'|]. now rewrite dispatched_keep.
  - settle_dist c u (VStr (call_method cl)) (call_endpoint cl) (call_data cl)
                (call_params cl) Hu Hc.
    eexists. split; [exact Hrun'|]. now rewrite dispatched_keep.
Qed.

(** X11: the transport settings of a request are the client's:
    [responseType] is ["json"], [responseEncoding] is [this.encoding] and
    [timeout] is [this.timeout] (present even when [undefined]), each
    unless [axiosConfig] names that key. *)
Theorem dispatched_transport_settings (c : client) (u : string) (cl : call) :
  url c = VStr u ->
  request_converts c (call_endpoint cl) = true ->
  has_key (axiosConfig c) "responseType" = false ->
  has_key (axiosConfig c) "responseEncoding" = false ->
  has_key (axiosConfig c) "timeout" = false ->
  (exists o, Mjs.invoke cl c = (Normal (VObj o), c)
             /\ obj_find o "responseType" = Some (VStr "json")
             /\ obj_find o "responseEncoding" = Some (encoding c)
             /\ obj_find o "timeout" = Some (timeout c))
  /\ (exists o, Dist.invoke cl c = (Normal (VObj o), c)
                /\ obj_find o "responseType" = Some (VStr "json")
                /\ obj_find o "responseEncoding" = Some (encoding c)
                /\ obj_find o "timeout" = Some (timeout c)).
Proof.
  intros Hu Hc H1 H2 H3.
  rewrite mjs_invoke_request, dist_invoke_request. split.
  - settle_mjs c u (VStr (call_method cl)) (call_endpoint cl) (call_data cl)
               (call_params cl) Hu Hc.
    eexists. split; [exact Hrun'|].
    rewrite !dispatched_keep by assumption. auto.
  - settle_dist c u (VStr (call_method cl)) (call_endpoint cl) (call_data cl)
                (call_params cl) Hu Hc.
    eexists. split; [exact Hrun'|].
    rewrite !dispatched_keep by assumption. auto.
Qed.

(** X12: every request carries [Accept: application/json]; it carries
    [User-Agent], made of the library's name and the client's
    [classVersion], exactly when the runtime is Node.js; both unless
    [axiosConfig] brings its own headers. *)
Theorem dispatched_base_headers (c : client) (u : string) (cl : call) :
  url c = VStr u ->
  request_converts c (call_endpoint cl) = true ->
  has_key (axiosConfig c) "headers" = false ->
  let agent :=
    if node_process
    then Some (VStr ("WooCommerce REST API - JS Client/"
                       ++ toStr (classVersion c)))
    else None in
  (exists o h, Mjs.invoke cl c = (Normal (VObj o), c)
               /\ obj_find o "headers" = Some (VObj h)
               /\ obj_find h "Accept" = Some (VStr "application/json")
               /\ obj_find h "User-Agent" = agent)
  /\ (exists o h, Dist.invoke cl c = (Normal (VObj o), c)
                  /\ obj_find o "headers" = Some (VObj h)
                  /\ obj_find h "Accept" = Some (VStr "application/json")
                  /\ obj_find h "User-Agent" = agent).
Proof.
  intros Hu Hc Hk agent. subst agent.
  rewrite mjs_invoke_request, dist_invoke_request. split.
  - settle_mjs c u (VStr (call_method cl)) (call_endpoint cl) (call_data cl)
               (call_params cl) Hu Hc.
    exists (spread2 (VObj a) (axiosConfig c)), h. split; [exact Hrun'|].
    rewrite dispatched_keep by assumption. auto.
  - settle_dist c u (VStr (call_method cl)) (call_endpoint cl) (call_data cl)
                (call_params cl) Hu Hc.
    exists (spread2 (VObj a) (axiosConfig c)), h. split; [exact Hrun'|].
    rewrite dispatched_keep by assumption. auto.
Qed.

(** X13: [axiosConfig] touches its own keys only: under a key it does not
    have, a request is dispatched with what the same client without any
    override dispatches. *)
Theorem overrides_touch_own_keys_only (c : client) (u : string) (cl : call)
        (k : string) :
  url c = VStr u ->
  request_converts c (call_endpoint cl) = true ->
  has_key (axiosConfig c) k = false ->
  let plain := with_axiosConfig (VObj []) c in
  (exists o o0,
      Mjs.invoke cl c = (Normal (VObj o), c)
      /\ Mjs.invoke cl plain = (Normal (VObj o0), plain)
      /\ obj_find o k = obj_find o0 k)
  /\ (exists o o0,
         Dist.invoke cl c = (Normal (VObj o), c)
         /\ Dist.invoke cl plain = (Normal (VObj o0), plain)
         /\ obj_find o k = obj_find o0 k).
Proof.
  intros Hu Hc Hk plain. subst plain.
  rewrite !mjs_invoke_request, !dist_invoke_request. split.
  - settle_mjs c u (VStr (call_method cl)) (call_endpoint cl) (call_data cl)
               (call_params cl) Hu Hc.
    do 2 eexists. split; [exact Hrun'|]. split; [exact (Hrun (VObj []))|].
    rewrite !dispatched_keep; [reflexivity | reflexivity | exact Hk].
  - settle_dist c u (VStr (call_method cl)) (call_endpoint cl) (call_data cl)
                (call_params cl) Hu Hc.
    do 2 eexists. split; [exact Hrun'|]. split; [exact (Hrun (VObj []))|].
    rewrite !dispatched_keep; [reflexivity | reflexivity | exact Hk].
Qed.

End MoreRequests.

Lemma requests_agree_when_token_set_witness :
  @Mjs.invoke node_platform (Post (VStr "orders") (VObj []) VUndefined)
    shop_client
  = @Dist.invoke node_platform (Post (VStr "orders") (VObj []) VUndefined)
      shop_client.
Proof.
  exact (@requests_agree_when_token_set node_platform shop_client
           (Post (VStr "orders") (VObj []) VUndefined) eq_refl).
Defined.

Lemma non_string_url_throws_witness :
  let c := configured (VObj [("url", VNum 8080); ("jwtToken", VStr "secret")]) in
  Mjs.new (VObj [("url", VNum 8080); ("jwtToken", VStr "secret")]) = Normal c
  /\ @Mjs.invoke node_platform (Get (VStr "orders") VUndefined) c
     = (Throw TypeError, c).
Proof.
  split; [reflexivity|].
  exact (proj1
           (@non_string_url_throws node_platform
              (configured (VObj [("url", VNum 8080);
                                 ("jwtToken", VStr "secret")]))
              (Get (VStr "orders") VUndefined) eq_refl)).
Defined.

Lemma verbs_dispatch_their_method_witness :
  dispatches_method
    (@Mjs.delete node_platform (VStr "orders/7") VUndefined shop_client)
    shop_client "delete".
Proof.
  exact (proj1 (proj2 (proj2 (proj2 (proj1
           (@verbs_dispatch_their_method node_platform shop_client
              "https://shop.example.com" (VStr "orders/7") VNull VUndefined
              eq_refl eq_refl eq_refl)))))).
Defined.

Lemma bodiless_verbs_send_no_body_witness :
  dispatches_no_body
    (@Dist.options node_platform (VStr "orders") VUndefined shop_client)
    shop_client.
Proof.
  exact (proj2 (proj2 (proj2
           (@bodiless_verbs_send_no_body node_platform shop_client
              "https://shop.example.com" (VStr "orders") VUndefined
              eq_refl eq_refl eq_refl eq_refl)))).
Defined.

Lemma dispatched_url_is_getUrl_witness :
  exists s,
    @_getUrl node_platform (VStr "orders") (VObj []) shop_client
    = (Normal s, shop_client)
    /\ (exists o,
           @Mjs.invoke node_platform (Get (VStr "orders") VUndefined)
             shop_client
           = (Normal (VObj o), shop_client)
           /\ obj_find o "url" = Some (VStr s))
    /\ (exists o,
           @Dist.invoke node_platform (Get (VStr "orders") VUndefined)
             shop_client
           = (Normal (VObj o), shop_client)
           /\ obj_find o "url" = Some (VStr s)).
Proof.
  exact (@dispatched_url_is_getUrl node_platform shop_client
           "https://shop.example.com" (Get (VStr "orders") VUndefined)
           eq_refl eq_refl eq_refl).
Defined.

Lemma dispatched_transport_settings_witness :
  exists o,
    @Mjs.invoke node_platform (Get (VStr "orders") VUndefined) shop_client
    = (Normal (VObj o), shop_client)
    /\ obj_find o "responseType" = Some (VStr "json")
    /\ obj_find o "responseEncoding" = Some (VStr "utf8")
    /\ obj_find o "timeout" = Some VUndefined.
Proof.
  exact (proj1
           (@dispatched_transport_settings node_platform shop_client
              "https://shop.example.com" (Get (VStr "orders") VUndefined)
              eq_refl eq_refl eq_refl eq_refl eq_refl)).
Defined.

Lemma dispatched_base_headers_witness :
  exists o h,
    @Mjs.invoke node_platform (Get (VStr "orders") VUndefined) shop_client
    = (Normal (VObj o), shop_client)
    /\ obj_find o "headers" = Some (VObj h)
    /\ obj_find h "Accept" = Some (VStr "application/json")
    /\ obj_find h "User-Agent"
       = Some (VStr "WooCommerce REST API - JS Client/1.0.1").
Proof.
  exact (proj1
           (@dispatched_base_headers node_platform shop_client
              "https://shop.example.com" (Get (VStr "orders") VUndefined)
              eq_refl eq_refl eq_refl)).
Defined.

Lemma overrides_touch_own_keys_only_witness :
  let c := with_axiosConfig (VObj [("timeout", VNum 5000)]) shop_client in
  exists o o0,
    @Mjs.invoke node_platform (Get (VStr "orders") VUndefined) c
    = (Normal (VObj o), c)
    /\ @Mjs.invoke node_platform (Get (VStr "orders") VUndefined) shop_client
       = (Normal (VObj o0), shop_client)
    /\ obj_find o "headers" = obj_find o0 "headers".
Proof.
  exact (proj1
           (@overrides_touch_own_keys_only node_platform
              (with_axiosConfig (VObj [("timeout", VNum 5000)]) shop_client)
              "https://shop.example.com" (Get (VStr "orders") VUndefined)
              "headers" eq_refl eq_refl eq_refl)).
Defined.

(* ------------------------------------------------------------------ *)
(** *** The URL, continued *)

Lemma split_first_absent (h s : string) :
  occurrences h s = 0 -> split_first h s = None.
Proof.
  induction s as [|ch s IH]; intros Hocc; rewrite split_first_eq;
    cbn [occurrences] in Hocc;
    destruct (String.prefix h _) eqn:Hp; try lia.
  - reflexivity.
  - rewrite IH by lia. reflexivity.
Qed.

(** X14: on a client whose [url] is a string and whose prefix, version,
    endpoint and port convert to strings, when the host name the parser
    reports does not occur in the composed URL (the parser lower-cases
    it, the base may not be lower case), a configured port is dropped
    without notice: the URL is the composed one. *)
Theorem port_dropped_when_host_not_found {P : Platform}
        (c : client) (u : string) (e p : value) :
  url c = VStr u ->
  url_converts c e = true ->
  occurrences (url_hostname (composed_url u c e)) (composed_url u c e) = 0 ->
  _getUrl e p c = (Normal (composed_url u c e), c).
Proof.
  intros Hu Hcv Hocc. rewrite (_getUrl_string c u e p Hu Hcv).
  unfold port_step.
  destruct (negb (strict_eq_str (port c) "")); [|reflexivity].
  unfold js_replace. now rewrite (split_first_absent _ _ Hocc).
Qed.

Lemma port_dropped_when_host_not_found_witness :
  let c := configured (VObj [("url", VStr "https://Shop.Example.com");
                             ("jwtToken", VStr "secret");
                             ("port", VNum 8080)]) in
  @_getUrl node_platform (VStr "orders") VUndefined c
  = (Normal "https://Shop.Example.com/wp-json/wc/v3/orders", c).
Proof.
  exact (@port_dropped_when_host_not_found node_platform
           (configured (VObj [("url", VStr "https://Shop.Example.com");
                              ("jwtToken", VStr "secret");
                              ("port", VNum 8080)]))
           "https://Shop.Example.com" (VStr "orders") VUndefined
           eq_refl eq_refl eq_refl).
Defined.

(** X15: on a client whose [url] is a string and whose prefix, version,
    endpoint and port convert to strings, when the parser reports an
    empty host name (a base without a scheme), a configured port lands in
    front of the whole URL: the replacement text [:port] as [replace]
    reads it, which is [:port] itself when the port is free of [$]. *)
Theorem port_prefixed_when_hostname_empty {P : Platform}
        (c : client) (u : string) (e p : value) :
  url c = VStr u ->
  url_converts c e = true ->
  strict_eq_str (port c) "" = false ->
  url_hostname (composed_url u c e) = "" ->
  _getUrl e p c
  = (Normal (getSubstitution "" "" (composed_url u c e)
               (":" ++ toStr (port c))
             ++ composed_url u c e), c)
  /\ (no_dollar (toStr (port c)) = true ->
      _getUrl e p c
      = (Normal (":" ++ toStr (port c) ++ composed_url u c e), c)).
Proof.
  intros Hu Hcv Hp Hh. rewrite (_getUrl_string c u e p Hu Hcv).
  unfold port_step. rewrite Hp, Hh. cbv [negb].
  pose proof (js_replace_at_leftmost "" "" (composed_url u c e)
                ("" ++ ":" ++ toStr (port c)) eq_refl) as Hr.
  cbn [append] in Hr |- *. rewrite Hr.
  split; [reflexivity|].
  intros Hnd.
  rewrite (getSubstitution_literal "" "" (composed_url u c e)
             (String ":" (toStr (port c)))); [reflexivity|].
  exact Hnd.
Qed.

Lemma port_prefixed_when_hostname_empty_witness :
  let c := configured (VObj [("url", VStr "shop.example.com");
                             ("jwtToken", VStr "secret");
                             ("port", VNum 8080)]) in
  @_getUrl node_platform (VStr "orders") VUndefined c
  = (Normal ":8080shop.example.com/wp-json/wc/v3/orders", c).
Proof.
  exact (proj2
           (@port_prefixed_when_hostname_empty node_platform
              (configured (VObj [("url", VStr "shop.example.com");
                                 ("jwtToken", VStr "secret");
                                 ("port", VNum 8080)]))
              "shop.example.com" (VStr "orders") VUndefined
              eq_refl eq_refl eq_refl eq_refl)
           eq_refl).
Defined.

(** When one of the parts does not convert, [_getUrl] throws, whatever
    [url] is. *)
Lemma _getUrl_throws {P : Platform} (c : client) (e p : value) :
  url_converts c e = false -> _getUrl e p c = (Throw TypeError, c).
Proof.
  unfold url_converts. intros Hc.
  unfold _getUrl. cbv beta iota zeta delta [bind read ret throw ToString].
  destruct (converts (wpAPIPrefix c)); [|reflexivity].
  destruct (url c); try reflexivity.
  destruct (converts (version c)); [|reflexivity].
  destruct (converts e); [|reflexivity].
  simpl in Hc. rewrite Hc.
  destruct (port c) as [| |b|n|t|o]; try discriminate Hc. reflexivity.
Qed.

(** X16: a slash at the end of the base is immaterial: a base that does
    not end in a slash and the same base with one slash added give the
    same URL for every endpoint, port step included. *)
Theorem trailing_slash_is_immaterial {P : Platform}
        (c : client) (u : string) (e p : value) :
  url c = VStr u ->
  (forall b, u <> b ++ "/") ->
  fst (_getUrl e p (with_url (VStr (u ++ "/")) c)) = fst (_getUrl e p c).
Proof.
  intros Hu Hno.
  destruct (url_converts c e) eqn:Hc.
  - rewrite (_getUrl_string c u e p Hu Hc).
    rewrite (_getUrl_string (with_url (VStr (u ++ "/")) c) (u ++ "/") e p
               eq_refl Hc).
    cbn [fst]. f_equal. unfold port_step. cbn [with_url port].
    rewrite composed_url_with_slash, composed_url_without_slash by exact Hno.
    reflexivity.
  - rewrite (_getUrl_throws c e p Hc).
    now rewrite (_getUrl_throws (with_url (VStr (u ++ "/")) c) e p Hc).
Qed.

Lemma trailing_slash_is_immaterial_witness :
  fst (@_getUrl node_platform (VStr "orders") VUndefined
         (with_url (VStr ("https://shop.example.com" ++ "/")) shop_client))
  = fst (@_getUrl node_platform (VStr "orders") VUndefined shop_client).
Proof.
  apply (@trailing_slash_is_immaterial node_platform shop_client
           "https://shop.example.com" (VStr "orders") VUndefined eq_refl).
  intros b Hb. apply (f_equal slice_last) in Hb.
  change (b ++ "/") with (b ++ String "/" "") in Hb.
  rewrite slice_last_snoc in Hb. discriminate Hb.
Defined.

(* ------------------------------------------------------------------ *)
(** *** Flattening, continued *)

Lemma flat_entries_of_scalars (params : value) :
  all_scalar params = true -> flat_entries params = entries params.
Proof.
  unfold all_scalar, flat_entries, entries.
  generalize (keys params) as ks.
  induction ks as [|k ks IH]; intros H; simpl in *.
  - reflexivity.
  - apply andb_true_iff in H as [Hk Hks].
    destruct (js_get params k); try discriminate Hk; simpl; now rewrite IH.
Qed.

Lemma all_scalar_no_null (params : value) :
  all_scalar params = true -> no_null_value params = true.
Proof.
  unfold all_scalar, no_null_value.
  generalize (keys params) as ks.
  induction ks as [|k ks IH]; intros H; simpl in *.
  - reflexivity.
  - apply andb_true_iff in H as [Hk Hks]. rewrite (IH Hks).
    destruct (js_get params k); try discriminate Hk; reflexivity.
Qed.

(** X17: on parameters without an own key [__proto__] and without a value
    of type ["object"], flattening is a plain copy: the result has the
    keys of [params], each with its value, and no other key. *)
Theorem flatten_of_scalars_is_copy (params : value) (k : string) :
  has_key params "__proto__" = false ->
  all_scalar params = true ->
  obj_find (_parseParamsObject params []) k
  = if has_key params k then Some (js_get params k) else None.
Proof.
  intros Hp H.
  rewrite (parse_as_writes params [] Hp (all_scalar_no_null params H)).
  rewrite obj_find_obj_assign.
  rewrite (flat_entries_of_scalars params H), last_write_entries.
  now destruct (has_key params k).
Qed.

Lemma flatten_of_scalars_is_copy_witness :
  obj_find
    (_parseParamsObject
       (VObj [("status", VStr "publish"); ("per_page", VNum 20)]) [])
    "per_page"
  = Some (VNum 20).
Proof.
  exact (flatten_of_scalars_is_copy
           (VObj [("status", VStr "publish"); ("per_page", VNum 20)])
           "per_page" eq_refl eq_refl).
Defined.

(** X18: on a client whose [url] is a string and whose URL and header
    parts convert to strings, for parameters without an own key
    [__proto__] and without a value of type ["object"], what reaches the
    transport as [params] agrees key by key with the flattened form,
    although [_request] does not flatten. *)
Theorem scalar_params_reach_transport_as_flattened {P : Platform}
        (c : client) (u : string) (cl : call) :
  url c = VStr u ->
  request_converts c (call_endpoint cl) = true ->
  has_key (axiosConfig c) "params" = false ->
  has_key (call_params cl) "__proto__" = false ->
  all_scalar (call_params cl) = true ->
  (exists o q,
      Mjs.invoke cl c = (Normal (VObj o), c)
      /\ obj_find o "params" = Some (VObj q)
      /\ forall k, obj_find q k
                   = obj_find (_parseParamsObject (call_params cl) []) k)
  /\ (exists o q,
         Dist.invoke cl c = (Normal (VObj o), c)
         /\ obj_find o "params" = Some (VObj q)
         /\ forall k, obj_find q k
                      = obj_find (_parseParamsObject (call_params cl) []) k).
Proof.
  intros Hu Hc Hk Hp Hs. split.
  - rewrite mjs_invoke_request.
    destruct (mjs_request_assembled c u (VStr (call_method cl))
                (call_endpoint cl) (call_data cl) (call_params cl) Hu Hc)
      as (a & h & Hrun & _ & Hq & _).
    do 2 eexists. split; [exact Hrun|]. split.
    + rewrite dispatched_keep by exact Hk. exact Hq.
    + intros k. rewrite default_arg_call_params, obj_find_spread2.
      rewrite has_key_undefined.
      now rewrite (flatten_of_scalars_is_copy (call_params cl) k Hp Hs).
  - rewrite dist_invoke_request.
    destruct (dist_request_assembled c u (VStr (call_method cl))
                (call_endpoint cl) (call_data cl) (call_params cl) Hu Hc)
      as (a & h & Hrun & _ & Hq & _).
    do 2 eexists. split; [exact Hrun|]. split.
    + rewrite dispatched_keep by exact Hk. exact Hq.
    + intros k. rewrite default_arg_call_params, obj_find_spread2.
      rewrite has_key_undefined.
      now rewrite (flatten_of_scalars_is_copy (call_params cl) k Hp Hs).
Qed.

Lemma scalar_params_reach_transport_as_flattened_witness :
  exists o q,
    @Mjs.invoke node_platform
      (Get (VStr "orders") (VObj [("status", VStr "completed")])) shop_client
    = (Normal (VObj o), shop_client)
    /\ obj_find o "params" = Some (VObj q)
    /\ forall k,
         obj_find q k
         = obj_find
             (_parseParamsObject (VObj [("status", VStr "completed")]) []) k.
Proof.
  exact (proj1
           (@scalar_params_reach_transport_as_flattened node_platform
              shop_client "https://shop.example.com"
              (Get (VStr "orders") (VObj [("status", VStr "completed")]))
              eq_refl eq_refl eq_refl eq_refl eq_refl)).
Defined.

(* ------------------------------------------------------------------ *)
(** *** The compiled spread helper *)

Lemma _defineProperty_sets (obj : props) (key : string) (v : value) :
  _defineProperty obj key v = obj_set obj key v.
Proof. unfold _defineProperty, defineProperty. now destruct (js_in obj key). Qed.

Lemma fold_defineProperty (source : value) (ks : list string) (target : props) :
  fold_left (fun t key => _defineProperty t key (js_get source key)) ks target
  = obj_assign target (map (fun k => (k, js_get source k)) ks).
Proof.
  revert target. induction ks as [|k ks IH]; intros target; simpl.
  - reflexivity.
  - rewrite IH, _defineProperty_sets. reflexivity.
Qed.

Lemma entries_of_source (a : value) :
  entries match a with
          | VUndefined | VNull => VObj []
          | _ => a
          end
  = entries a.
Proof. destruct a; reflexivity. Qed.

(** X19: the compiled helper agrees with the spread literal it replaces:
    [_objectSpread({}, a, {}, b)] builds the object [{ ...a, ...b }],
    whether or not the runtime has [Object.getOwnPropertyDescriptors], so
    the two texts build [options.params] and the final [options] alike. *)
Theorem objectSpread_is_spread_literal (descriptors : bool) (a b : value) :
  _objectSpread descriptors [] [a; VObj []; b] = spread2 a b.
Proof.
  unfold _objectSpread, spread2. cbn [_objectSpread_from Nat.odd Nat.even negb].
  unfold ownKeys. rewrite !fold_defineProperty.
  change (fun k => (k, js_get ?s k)) with (fun k => (k, js_get s k)).
  fold (entries match a with VUndefined | VNull => VObj [] | _ => a end).
  fold (entries match b with VUndefined | VNull => VObj [] | _ => b end).
  rewrite !entries_of_source.
  destruct descriptors; reflexivity.
Qed.

(* ------------------------------------------------------------------ *)
(** *** Conversions that throw, keys that cannot be written *)

(** X20: when the prefix, the version, the endpoint or the port is an
    object with an own [toString] property, every call throws [TypeError]
    while the URL is put together, and nothing is dispatched. *)
Theorem unconvertible_part_throws {P : Platform} (c : client) (cl : call) :
  url_converts c (call_endpoint cl) = false ->
  Mjs.invoke cl c = (Throw TypeError, c)
  /\ Dist.invoke cl c = (Throw TypeError, c).
Proof.
  intros Hc. rewrite mjs_invoke_request, dist_invoke_request.
  unfold Mjs._request, Dist._request.
  cbv beta iota zeta delta [bind].
  rewrite !(_getUrl_throws c (call_endpoint cl) _ Hc). split; reflexivity.
Qed.

Lemma unconvertible_part_throws_witness :
  @Mjs.invoke node_platform
    (Get (VObj [("toString", VNum 1)]) VUndefined) shop_client
  = (Throw TypeError, shop_client).
Proof.
  exact (proj1
           (@unconvertible_part_throws node_platform shop_client
              (Get (VObj [("toString", VNum 1)]) VUndefined) eq_refl)).
Defined.

Lemma js_put_creates_no_proto (q : props) (k : string) (v : value) :
  obj_find q "__proto__" = None ->
  obj_find (js_put q k v) "__proto__" = None.
Proof.
  intros Hq. unfold js_put. destruct (String.eqb k "__proto__") eqn:E.
  - apply String.eqb_eq in E. subst k. now rewrite Hq.
  - now rewrite obj_find_obj_set, E.
Qed.

(** X21: flattening never gives the query an own [__proto__] property: a
    query without one comes back without one, whatever the parameters,
    an own key [__proto__] among them included. *)
Theorem flattening_creates_no_proto (params : value) (query : props) :
  obj_find query "__proto__" = None ->
  obj_find (_parseParamsObject params query) "__proto__" = None.
Proof.
  unfold _parseParamsObject. generalize (keys params) as ks. intros ks.
  revert query. induction ks as [|key ks IH]; intros query Hq;
    cbn [fold_left].
  - exact Hq.
  - apply IH.
    destruct (String.eqb (typeof (js_get params key)) "object").
    + generalize (keys (js_get params key)) as ps. intros ps.
      revert query Hq. induction ps as [|prop ps IHp]; intros query Hq;
        cbn [fold_left].
      * exact Hq.
      * apply IHp. now apply js_put_creates_no_proto.
    + now apply js_put_creates_no_proto.
Qed.

Lemma flattening_creates_no_proto_witness :
  obj_find
    (_parseParamsObject
       (VObj [("__proto__", VStr "x"); ("status", VStr "publish")]) [])
    "__proto__"
  = None.
Proof.
  exact (flattening_creates_no_proto
           (VObj [("__proto__", VStr "x"); ("status", VStr "publish")])
           [] eq_refl).
Defined.
